(** * logseq-anki-sync: the multi-line card note

    A shallow embedding of [src/notes/MultilineCardNote.ts] and
    [src/notes/NoteUtils.ts]: tag resolution, card direction, depth cap,
    field resolution, the recursive children rendering, the card assembly and
    the filter that drops notes already produced by other note types.

    JavaScript values are embedded as the inductive [Js.value]; asynchronous
    functions that can reject (or throw) return a [result]; the host (Logseq
    proxy, HTML converter, helpers of other files) is a set of Section
    variables. *)

From Stdlib Require Import String Ascii List ZArith Bool Lia.
From Stdlib Require Import DecimalString DecimalPos DecimalN.
Import ListNotations.

Set Warnings "-notation-for-abbreviation".

Local Open Scope string_scope.
Local Open Scope Z_scope.

(** ** Strings *)

Module Str.

(** The double quote and the line feed, as characters of template literals. *)
Definition dq : string := String (ascii_of_nat 34) EmptyString.
Definition nl : string := String (ascii_of_nat 10) EmptyString.

Definition isEmpty (s : string) : bool :=
  match s with EmptyString => true | String _ _ => false end.

(** [s.startsWith(p)] *)
Definition startsWith (s p : string) : bool := String.prefix p s.

Fixpoint drop (n : nat) (s : string) : string :=
  match n, s with
  | O, _ => s
  | S n', String _ s' => drop n' s'
  | S _, EmptyString => EmptyString
  end.

(** [s.includes(p)] *)
Fixpoint includes (s p : string) : bool :=
  String.prefix p s
  || match s with
     | EmptyString => false
     | String _ s' => includes s' p
     end.

(** [s.replace(pat, rep)] for a string pattern and a replacement without
    dollar patterns: the first occurrence only. *)
Fixpoint replace (s pat rep : string) : string :=
  if String.prefix pat s then rep ++ drop (String.length pat) s
  else match s with
       | EmptyString => EmptyString
       | String c s' => String c (replace s' pat rep)
       end.

Definition isUpper (c : ascii) : bool :=
  let n := nat_of_ascii c in (65 <=? n)%nat && (n <=? 90)%nat.

Definition lowerChar (c : ascii) : ascii :=
  if isUpper c then ascii_of_nat (nat_of_ascii c + 32) else c.

(** [s.toLowerCase()] on the bytes of the string.  Only the letters A to Z
    change; no character outside ASCII lower-cases to one of the letters of
    "cloze" or "depth-", the only words the program compares against. *)
Fixpoint toLowerCase (s : string) : string :=
  match s with
  | EmptyString => EmptyString
  | String c s' => String (lowerChar c) (toLowerCase s')
  end.

Definition isDigit (c : ascii) : bool :=
  let n := nat_of_ascii c in (48 <=? n)%nat && (n <=? 57)%nat.

Fixpoint allDigits (s : string) : bool :=
  match s with
  | EmptyString => true
  | String c s' => isDigit c && allDigits s'
  end.

(** The largest integer up to which a Number holds every integer exactly. *)
Definition maxExact : Z := 2 ^ 53.

(** The decimal value of a non-empty string of digits.  It is what
    [parseInt(s)] returns as long as the value is at most [maxExact]; above,
    [parseInt] returns a double near the value, which this definition does
    not give, so every statement on the number a depth tag gives carries the
    bound.  On a string that is not made of digits [parseInt] is NaN, which
    no caller of this file produces. *)
Definition parseInt (s : string) : Z :=
  match NilEmpty.uint_of_string s with
  | Some d => Z.of_N (N.of_uint d)
  | None => 0
  end.

(** [String(z)] for an integer. *)
Definition ofZ (z : Z) : string := NilZero.string_of_int (Z.to_int z).

(** [a.join(",")] *)
Definition join (l : list string) : string := String.concat "," l.

End Str.

(** ** JavaScript values *)

Module Js.

(** The values a block property can hold, and what a lookup can return.
    Numbers are the integers; [VObj s] is an object or a function of which
    only the string form [s] matters (it is truthy and equal to no
    string but [s] under [==]). *)
Inductive value : Type :=
| VUndef
| VNull
| VBool (b : bool)
| VNum (z : Z)
| VStr (s : string)
| VArr (l : list string)
| VObj (s : string).

(** ToBoolean *)
Definition truthy (v : value) : bool :=
  match v with
  | VUndef | VNull => false
  | VBool b => b
  | VNum z => negb (z =? 0)
  | VStr s => negb (Str.isEmpty s)
  | VArr _ | VObj _ => true
  end.

(** ToString, as in a template literal [`${v}`] and as a property key. *)
Definition toString (v : value) : string :=
  match v with
  | VUndef => "undefined"
  | VNull => "null"
  | VBool true => "true"
  | VBool false => "false"
  | VNum z => Str.ofZ z
  | VStr s => s
  | VArr l => Str.join l
  | VObj s => s
  end.

(** [v === s] for a string [s] *)
Definition strictEqStr (v : value) (s : string) : bool :=
  match v with
  | VStr t => String.eqb t s
  | _ => false
  end.

(** [v == s] for a string [s] that is not a numeric literal (ToNumber of
    [s] is NaN, so no number and no boolean equals it). *)
Definition looseEqWord (v : value) (s : string) : bool :=
  match v with
  | VStr t => String.eqb t s
  | VArr _ | VObj _ => String.eqb (toString v) s
  | VUndef | VNull | VBool _ | VNum _ => false
  end.

(** [a || b] *)
Definition or (a b : value) : value := if truthy a then a else b.

(** A plain object, as the list of its own enumerable entries, in the order
    [Object.entries] visits them. *)
Definition object (A : Type) : Type := list (string * A).

Fixpoint own {A : Type} (o : object A) (k : string) : option A :=
  match o with
  | [] => None
  | (k', v) :: o' => if String.eqb k' k then Some v else own o' k
  end.

(** What every plain object inherits from [Object.prototype]. *)
Definition objectPrototype : object value :=
  [ ("constructor", VObj "function Object() { [native code] }");
    ("toString", VObj "function toString() { [native code] }");
    ("toLocaleString", VObj "function toLocaleString() { [native code] }");
    ("valueOf", VObj "function valueOf() { [native code] }");
    ("hasOwnProperty", VObj "function hasOwnProperty() { [native code] }");
    ("isPrototypeOf", VObj "function isPrototypeOf() { [native code] }");
    ("propertyIsEnumerable",
      VObj "function propertyIsEnumerable() { [native code] }");
    ("__defineGetter__", VObj "function __defineGetter__() { [native code] }");
    ("__defineSetter__", VObj "function __defineSetter__() { [native code] }");
    ("__lookupGetter__", VObj "function __lookupGetter__() { [native code] }");
    ("__lookupSetter__", VObj "function __lookupSetter__() { [native code] }");
    ("__proto__", VObj "[object Object]") ].

(** [o[k]], and [_.get(x, "o.k")]: the own property, else the inherited
    one, else [undefined]. *)
Definition get (o : object value) (k : string) : value :=
  match own o k with
  | Some v => v
  | None =>
      match own objectPrototype k with
      | Some v => v
      | None => VUndef
      end
  end.

Fixpoint update {A : Type} (o : object A) (k : string) (v : A) : object A :=
  match o with
  | [] => [(k, v)]
  | (k', v') :: o' =>
      if String.eqb k' k then (k', v) :: o' else (k', v') :: update o' k v
  end.

(** [o[k] = v] on an object literal for a string [v]: an existing key keeps
    its place, a new key is added after the others (where integer-like keys
    are enumerated is left to the consumer of the list); assigning a string
    to [__proto__] is ignored. *)
Definition set (o : object string) (k : string) (v : string) : object string :=
  if String.eqb k "__proto__" then o else update o k v.

(** [Object.keys(o)] *)
Definition keys {A : Type} (o : object A) : list string := map fst o.

End Js.

Import Js.

(** ** Results of calls that can throw or reject *)

Inductive exn : Type :=
| TypeError
| HostFailure.

Inductive result (A : Type) : Type :=
| Ok (a : A)
| Err (e : exn).

Arguments Ok {A} a.
Arguments Err {A} e.

Definition bind {A B : Type} (m : result A) (k : A -> result B) : result B :=
  match m with
  | Ok a => k a
  | Err e => Err e
  end.

Notation "x <- m ;; k" := (bind m (fun x => k))
  (at level 61, m at next level, right associativity).

Section Loops.

Context {A B : Type}.

(** [for (const x of l) acc = await f(acc, x)] *)
Section Fold.
Variable f : B -> A -> result B.

Fixpoint foldM (l : list A) (acc : B) : result B :=
  match l with
  | [] => Ok acc
  | x :: l' => acc' <- f acc x ;; foldM l' acc'
  end.

End Fold.

(** [await Promise.all(l.map(f))]: the calls are made in the order of the
    list, and one rejection rejects the whole. *)
Section Map.
Variable f : A -> result B.

Fixpoint mapM (l : list A) : result (list B) :=
  match l with
  | [] => Ok []
  | x :: l' => y <- f x ;; ys <- mapM l' ;; Ok (y :: ys)
  end.

End Map.

End Loops.

(** ** Entities of the host *)

(** [ExtendedBlockEntity].  [content] and [format] are the strings
    [BlockEntity] declares.  An absent [properties], [children], [refs] is
    the empty one: every use in the program reads them through [|| {}],
    [|| []], [?.length > 0] or [_.get], which do not tell the two apart.
    [refs] holds the ids, [parent] and [page] the id of the entity referred
    to.  A query result is the block itself, not the one-element tuple
    around it. *)
Module Block.

#[warnings="-register-all"]
Inductive t : Type := make {
  uuid : string;
  id : Z;
  content : string;
  format : string;
  properties : Js.object Js.value;
  children : list t;
  refs : list Z;
  parent : option Z;
  page : option Z;
  tagsFromParentCardGroup : option (list string)
}.

Definition withTagsFromParentCardGroup (b : t) (tags : list string) : t :=
  make (uuid b) (id b) (content b) (format b) (properties b) (children b)
       (refs b) (parent b) (page b) (Some tags).

Definition withChildren (b : t) (cs : list t) : t :=
  make (uuid b) (id b) (content b) (format b) (properties b) cs
       (refs b) (parent b) (page b) (tagsFromParentCardGroup b).

(** The block without its descendants more than [k] levels below it. *)
Fixpoint cutBelow (k : nat) (b : t) : t :=
  match k with
  | O => withChildren b []
  | S k' => withChildren b (map (cutBelow k') (children b))
  end.

End Block.

Module PageEntity.

Record t : Type := make { id : Z }.

End PageEntity.

Module HTMLFile.

Record t : Type := make {
  html : string;
  assets : list string;
  tags : list string
}.

End HTMLFile.

(** The base class [Note], as far as its constructor arguments go. *)
Module Note.

Record t : Type := make {
  uuid : string;
  content : string;
  format : string;
  properties : Js.object Js.value;
  page : option PageEntity.t;
  tagIds : list Z
}.

End Note.

Record MultilineCardNote : Type := mkMultilineCardNote {
  note : Note.t;
  children : list Block.t;
  tags : list string
}.

(** [new MultilineCardNote(uuid, content, format, properties, page, tags,
    children, tagIds)] *)
Definition newMultilineCardNote (uuid content format : string)
  (properties : Js.object Js.value) (page : option PageEntity.t)
  (tags : list string) (children : list Block.t) (tagIds : list Z)
  : MultilineCardNote :=
  mkMultilineCardNote (Note.make uuid content format properties page tagIds)
                      children tags.

Definition properties (n : MultilineCardNote) : Js.object Js.value :=
  Note.properties (note n).

(** The identities [LogseqProxy.Editor.getPage] and [getBlock] accept. *)
Inductive PageIdentity : Type :=
| PageName (name : string)
| PageEntityID (id : Z).

Inductive BlockIdentity : Type :=
| BlockUUID (uuid : string)
| BlockEntityID (id : Z).

(** The three datascript queries of [getNotesFromLogseqBlocks]: the blocks
    that reference the page "card", those that reference "flashcard", and the
    children of the blocks that reference "card-group". *)
Inductive Query : Type :=
| RefsCard
| RefsFlashcard
| ChildrenOfCardGroup.

(** ** The program *)

(** The pages [initLogseqOperations] creates (lines 115-123). *)
Definition createdPages : list string :=
  (["card-group"; "flashcard"; "forward"; "reversed"; "bidirectional";
    "incremental"]
   ++ map (fun i => ("depth-" ++ Str.ofZ (Z.of_nat i))%string) (seq 1 9))%list.

Section Program.

(** The host and the code of other files. *)

(** [LogseqProxy.Editor.getPage]: a page, [null], or a rejection. *)
Variable getPage : PageIdentity -> result (option PageEntity.t).
(** [LogseqProxy.Editor.getBlock(id, {includeChildren})] *)
Variable getBlock : BlockIdentity -> bool -> result (option Block.t).
(** [LogseqProxy.DB.datascriptQueryBlocks] *)
Variable datascriptQueryBlocks : Query -> result (list Block.t).
(** [convertToHTMLFile(content, format)] of LogseqToHtmlConverter *)
Variable convertToHTMLFile : string -> string -> result HTMLFile.t.
(** [escapeClozesAndMacroDelimiters] of utils *)
Variable escapeClozesAndMacroDelimiters : string -> string.
(** [getUUIDFromBlock] *)
Variable getUUIDFromBlock : Block.t -> string.
(** [Note.removeUnwantedNotes], which also receives the [null] entries *)
Variable removeUnwantedNotes :
  list (option MultilineCardNote) -> result (list MultilineCardNote).
(** StringToNumber of the language, on the strings whose value is an
    integer; [None] is NaN. *)
Variable StringToNumber : string -> option Z.
(** [JSON.stringify] of an object whose values are strings *)
Variable JSON_stringify : Js.object string -> string.

(** ToNumber; [None] is NaN. *)
Definition toNumber (v : Js.value) : option Z :=
  match v with
  | VUndef => None
  | VNull => Some 0
  | VBool b => Some (if b then 1 else 0)
  | VNum z => Some z
  | VStr s => StringToNumber s
  | VArr _ | VObj _ => StringToNumber (Js.toString v)
  end.

(** [level >= v] for a number [level] *)
Definition geNumber (level : Z) (v : Js.value) : bool :=
  match toNumber v with
  | Some z => z <=? level
  | None => false
  end.

(** *** NoteUtils.matchTagNamesWithTagIds (NoteUtils.ts) *)

(** [tagIdsSet.has(id)] *)
Definition setHas (tagIds : list Z) (id : Z) : bool := existsb (Z.eqb id) tagIds.

(** [tagPage && tagPage.id && tagIdsSet.has(tagPage.id)] *)
Definition pageMatches (tagIds : list Z) (tagPage : option PageEntity.t) : bool :=
  match tagPage with
  | None => false
  | Some p => negb (PageEntity.id p =? 0) && setHas tagIds (PageEntity.id p)
  end.

(** The body of the loop of [matchTagNamesWithTagIds]. *)
Definition matchStep (tagIds : list Z) (matched : list string) (tagName : string)
  : result (list string) :=
  tagPage <- getPage (PageName tagName) ;;
  Ok (if pageMatches tagIds tagPage then (matched ++ [tagName])%list else matched).

Definition matchTagNamesWithTagIds (tagIds : list Z) (tagNames : list string)
  : result (list string) :=
  foldM (matchStep tagIds) tagNames [].

(** The lookup of a candidate answered with a page that counts. *)
Definition lookupMatches (tagIds : list Z) (tagName : string) : bool :=
  match getPage (PageName tagName) with
  | Ok tagPage => pageMatches tagIds tagPage
  | Err _ => false
  end.

(** *** MultilineCardNote (MultilineCardNote.ts) *)

(** [Array.from({length: n}, (_, i) => `depth-${i}`)] *)
Definition depthTagNames (n : nat) : list string :=
  map (fun i => "depth-" ++ Str.ofZ (Z.of_nat i)) (seq 0 n).

Definition relevantTagNames : list string :=
  (["forward"; "reversed"; "bidirectional"; "incremental"]
   ++ depthTagNames 10)%list.

(** Lines 151-161. *)
Definition getRelevantTags (tagIds : list Z) : result (list string) :=
  tags <- matchTagNamesWithTagIds tagIds relevantTagNames ;;
  Ok (map (fun tag => tag) tags).

(** [this.tags.includes(tag)] *)
Definition includes (tags : list string) (tag : string) : bool :=
  existsb (String.eqb tag) tags.

(** Lines 126-138. *)
Definition getCardDirection (n : MultilineCardNote) : Js.value :=
  let direction := Js.get (properties n) "direction" in
  if negb (Js.strictEqStr direction "->")
     && negb (Js.strictEqStr direction "<-")
     && negb (Js.strictEqStr direction "<->")
  then
    if (includes (tags n) "reversed" && includes (tags n) "forward")
       || includes (tags n) "bidirectional"
    then VStr "<->"
    else if includes (tags n) "reversed" then VStr "<-"
    else VStr "->"
  else direction.

(** [/^depth-(\d+)$/i.exec(tag)]: the digits captured, when the tag
    matches. *)
Definition depthTagDigits (tag : string) : option string :=
  if Str.startsWith (Str.toLowerCase tag) "depth-" then
    let digits := Str.drop 6 tag in
    if negb (Str.isEmpty digits) && Str.allDigits digits then Some digits
    else None
  else None.

(** The body of the loop of [getChildrenMaxDepth]. *)
Definition depthStep (maxDepth : Js.value) (tag : string) : Js.value :=
  match depthTagDigits tag with
  | Some digits => VNum (Str.parseInt digits)
  | None => maxDepth
  end.

(** Lines 140-149. *)
Definition getChildrenMaxDepth (n : MultilineCardNote) : Js.value :=
  fold_left depthStep (tags n)
            (Js.or (Js.get (properties n) "depth") (VNum 9999)).

Definition ulOpen : string :=
  Str.nl ++ "<ul class=" ++ Str.dq ++ "children-list left-border" ++ Str.dq ++ ">".

Definition liOpen (child : Block.t) : string :=
  Str.nl ++ "<li class=" ++ Str.dq ++ "children "
  ++ (if Js.looseEqWord (Js.get (Block.properties child) "logseq.orderListType")
                        "number"
      then "numbered" else EmptyString)
  ++ Str.dq ++ ">".

(** The text handed to the converter for one child: its escaped content,
    followed by its [extra] property when that is truthy. *)
Definition sanitizedChildContent (child : Block.t) : string :=
  let sanitized := escapeClozesAndMacroDelimiters (Block.content child) in
  let childExtra := Js.get (Block.properties child) "extra" in
  if Js.truthy childExtra
  then sanitized ++ Str.nl ++ "<div class=" ++ Str.dq ++ "extra" ++ Str.dq ++ ">"
       ++ Js.toString childExtra ++ "</div>"
  else sanitized.

(** One turn of the loop of [getChildrenListHTML] at [level] (lines 190-209):
    the list's HTML so far, extended by the item of [child].  The call on the
    child's own children is the loop itself, one level down. *)
Fixpoint appendChild (maxDepth : Js.value) (level : Z) (childrenListHTML : string)
  (child : Block.t) {struct child} : result string :=
  let childrenListHTML := childrenListHTML ++ liOpen child in
  sanitizedChildHTMLFile <-
    convertToHTMLFile (sanitizedChildContent child) (Block.format child) ;;
  let sanitizedChildHTML := HTMLFile.html sanitizedChildHTMLFile in
  sanitizedChildHTML <-
    (if (0 <? length (Block.children child))%nat then
       below <-
         (if geNumber (level + 1) maxDepth then Ok EmptyString
          else
            html <- foldM (appendChild maxDepth (level + 1))
                          (Block.children child) ulOpen ;;
            Ok (html ++ "</ul>")) ;;
       Ok (sanitizedChildHTML ++ below)
     else Ok sanitizedChildHTML) ;;
  Ok ((childrenListHTML ++ sanitizedChildHTML) ++ "</li>").

(** Lines 184-212. *)
Definition getChildrenListHTML (maxDepth : Js.value)
  (childrenList : list Block.t) (level : Z) : result string :=
  if geNumber level maxDepth then Ok EmptyString
  else
    html <- foldM (appendChild maxDepth level) childrenList ulOpen ;;
    Ok (html ++ "</ul>").

(** Lines 181-215. *)
Definition getChildrenContent (n : MultilineCardNote) : result string :=
  getChildrenListHTML (getChildrenMaxDepth n) (children n) 0.

(** [v.toString()]: a TypeError on [undefined] and [null]. *)
Definition callToString (v : Js.value) : result string :=
  match v with
  | VUndef | VNull => Err TypeError
  | _ => Ok (Js.toString v)
  end.

(** [v.toLowerCase()]: a TypeError unless [v] is a string. *)
Definition callToLowerCase (v : Js.value) : result string :=
  match v with
  | VStr s => Ok (Str.toLowerCase s)
  | _ => Err TypeError
  end.

(** Lines 163-179.  The mapping is the value of an [anki-field-] property,
    whatever its type ([value as string] checks nothing); the [switch]
    compares with [===], the property access converts the mapping to a
    key. *)
Definition getFieldContent (n : MultilineCardNote) (fieldMapping : Js.value)
  : result string :=
  if Js.strictEqStr fieldMapping "content" then
    contentHtml <-
      convertToHTMLFile (Note.content (note n)) (Note.format (note n)) ;;
    Ok (HTMLFile.html contentHtml)
  else if Js.strictEqStr fieldMapping "children" then
    childrenHtml <- getChildrenContent n ;;
    Ok childrenHtml
  else
    let property := Js.get (properties n) (Js.toString fieldMapping) in
    if Js.truthy property then callToString property
    else Ok EmptyString.

(** The first loop of [getClozedContentHTML] (lines 222-229): the declared
    fields. *)
Definition getDeclaredFieldContent (n : MultilineCardNote)
  : result (Js.object string) :=
  foldM (fun fieldContent entry =>
           let key := fst entry in
           let value := snd entry in
           if Str.startsWith key "anki-field-" then
             let fieldName := Str.replace key "anki-field-" EmptyString in
             html <- getFieldContent n value ;;
             Ok (Js.set fieldContent fieldName html)
           else Ok fieldContent)
        (properties n) [].

(** The note declares no field: no property starts with [anki-field-]. *)
Definition declaresNoField (n : MultilineCardNote) : Prop :=
  forall key value,
    In (key, value) (properties n) -> Str.startsWith key "anki-field-" = false.

(** What [getClozedContentHTML] computes before it builds the HTML. *)
Record Card : Type := mkCard {
  ankiModel : Js.value;
  fieldContent : Js.object string;
  mainContent : string
}.

(** Lines 221-250. *)
Definition getCard (n : MultilineCardNote) : result Card :=
  fieldContent <- getDeclaredFieldContent n ;;
  let direction := getCardDirection n in
  mainContent <-
    (if Js.strictEqStr direction "<-" || Js.strictEqStr direction "<->"
     then getFieldContent n (VStr "children")
     else getFieldContent n (VStr "content")) ;;
  let ankiModel := Js.or (Js.get (properties n) "anki-model") (VStr "Basic") in
  fieldContent <-
    (if (length (Js.keys fieldContent) =? 0)%nat then
       lower <- callToLowerCase ankiModel ;;
       if Str.includes lower "cloze" then
         Ok (Js.set fieldContent "Text" mainContent)
       else
         let fieldContent := Js.set fieldContent "Front" mainContent in
         back <- getFieldContent n (VStr "children") ;;
         Ok (Js.set fieldContent "Back" back)
     else Ok fieldContent) ;;
  Ok (mkCard ankiModel fieldContent mainContent).

Definition spaces (n : nat) : string := String.concat EmptyString (repeat " " n).

(** The template literal of [getClozedContentHTML] (lines 253-259). *)
Definition cardHTML (c : Card) : string :=
  Str.nl ++ spaces 12 ++ "<div class=" ++ Str.dq ++ "anki-custom-data" ++ Str.dq
  ++ " style=" ++ Str.dq ++ "display:none" ++ Str.dq ++ ">"
  ++ Str.nl ++ spaces 16 ++ "<div class=" ++ Str.dq ++ "anki-model" ++ Str.dq ++ ">"
  ++ Js.toString (ankiModel c) ++ "</div>"
  ++ Str.nl ++ spaces 16 ++ "<div class=" ++ Str.dq ++ "anki-fields" ++ Str.dq ++ ">"
  ++ JSON_stringify (fieldContent c) ++ "</div>"
  ++ Str.nl ++ spaces 12 ++ "</div>"
  ++ Str.nl ++ spaces 12 ++ mainContent c
  ++ Str.nl ++ spaces 8.

Definition getClozedContentHTML (n : MultilineCardNote) : result HTMLFile.t :=
  card <- getCard n ;;
  Ok (HTMLFile.make (cardHTML card) [] []).

(** *** getNotesFromLogseqBlocks *)

(** The first [map] (lines 290-302): a child of a card-group block gets the
    relevant tags of its parent.  A parent id of 0 is falsy. *)
Definition getTagsOfParent (blockEntity : Block.t) : result (list string) :=
  parentBlock <-
    match Block.parent blockEntity with
    | Some parent =>
        if negb (parent =? 0) then getBlock (BlockEntityID parent) false
        else Ok None
    | None => Ok None
    end ;;
  match parentBlock with
  | Some parentBlock => getRelevantTags (Block.refs parentBlock)
  | None => Ok []
  end.

Definition addTagsFromParentCardGroup (blockEntity : Block.t) : result Block.t :=
  tags <- getTagsOfParent blockEntity ;;
  Ok (Block.withTagsFromParentCardGroup blockEntity tags).

(** [tags && tags.length > 0 ? tags : tagsFromParentCardGroup] *)
Definition chooseTags (tags tagsFromParentCardGroup : list string) : list string :=
  if (0 <? length tags)%nat then tags else tagsFromParentCardGroup.

(** The second [map] (lines 308-338): the note of a block, [null] when the
    block is gone.
    The page is [None] both for [null] and for the [{}] of a block without
    page. *)
Definition getNoteOfBlock (blockEntity : Block.t)
  : result (option MultilineCardNote) :=
  let uuid := getUUIDFromBlock blockEntity in
  page <-
    match Block.page blockEntity with
    | Some id => getPage (PageEntityID id)
    | None => Ok None
    end ;;
  let tagsFromParentCardGroup :=
    match Block.tagsFromParentCardGroup blockEntity with
    | Some tags => tags
    | None => []
    end in
  fullBlock <- getBlock (BlockUUID uuid) true ;;
  match fullBlock with
  | Some fullBlock =>
      tags <- getRelevantTags (Block.refs fullBlock) ;;
      Ok (Some (newMultilineCardNote
                  uuid
                  (Block.content fullBlock)
                  (Block.format fullBlock)
                  (Block.properties fullBlock)
                  page
                  (chooseTags tags tagsFromParentCardGroup)
                  (Block.children fullBlock)
                  (Block.refs fullBlock)))
  | None => Ok None
  end.

(** [_.find(otherNotes, {uuid: uuid})], as a truth value *)
Definition findByUuid (otherNotes : list Note.t) (uuid : string) : bool :=
  existsb (fun other => String.eqb (Note.uuid other) uuid) otherNotes.

(** The predicate of the final [_.filter] (lines 341-351). *)
Definition isRetained (otherNotes : list Note.t) (n : MultilineCardNote) : bool :=
  Js.truthy (Js.get (properties n) "direction")
  || includes (tags n) "forward"
  || includes (tags n) "bidirectional"
  || includes (tags n) "reversed"
  || (0 <? length (children n))%nat
  || negb (findByUuid otherNotes (Note.uuid (note n))).

Definition filterNotes (otherNotes : list Note.t) (notes : list MultilineCardNote)
  : list MultilineCardNote :=
  filter (isRetained otherNotes) notes.

Definition getNotesFromLogseqBlocks (otherNotes : list Note.t)
  : result (list MultilineCardNote) :=
  logseqCard_blocks <- datascriptQueryBlocks RefsCard ;;
  flashCard_blocks <- datascriptQueryBlocks RefsFlashcard ;;
  logseqCardGroup_blocks <- datascriptQueryBlocks ChildrenOfCardGroup ;;
  logseqCardGroup_blocks <-
    mapM addTagsFromParentCardGroup logseqCardGroup_blocks ;;
  let blocks :=
    (logseqCard_blocks ++ flashCard_blocks ++ logseqCardGroup_blocks)%list in
  notes <- mapM getNoteOfBlock blocks ;;
  notes <- removeUnwantedNotes notes ;;
  Ok (filterNotes otherNotes notes).

End Program.

(** *** getBlockDependencies and getBlocksFromLogseq (lines 355-373) *)

Module DependencyEntity.

Record t : Type := make { type : string; value : string }.

End DependencyEntity.

(** One turn of the loop of [getChildrenUUID] (lines 358-363): the uuid of
    the child is pushed, then the uuids below it are appended when it has
    children. *)
Fixpoint pushChildUUID (result : list string) (child : Block.t) {struct child}
  : list string :=
  let result := (result ++ [Block.uuid child])%list in
  if (0 <? length (Block.children child))%nat
  then (result ++ fold_left pushChildUUID (Block.children child) [])%list
  else result.

Definition getChildrenUUID (children : list Block.t) : list string :=
  fold_left pushChildUUID children [].

Definition getBlockDependencies (n : MultilineCardNote)
  : list DependencyEntity.t :=
  map (fun block => DependencyEntity.make "Block" block)
      (Note.uuid (note n) :: getChildrenUUID (children n)).

Definition getBlocksFromLogseq : result (list Block.t) := Ok [].

(** ** Outlines

    What the statements below say of a list of blocks and what is below
    them. *)

Module Outline.

(** The number of levels of a block: 1 for a block without children. *)
Fixpoint height (b : Block.t) : nat :=
  S (list_max (map height (Block.children b))).

(** The number of levels of a list of blocks: 0 for the empty list. *)
Definition levels (l : list Block.t) : nat := list_max (map height l).

(** The number of blocks at and below a block. *)
Fixpoint size (b : Block.t) : nat :=
  S (list_sum (map size (Block.children b))).

Definition count (l : list Block.t) : nat := list_sum (map size l).

(** [b] is in the list or below one of its blocks. *)
Inductive within : list Block.t -> Block.t -> Prop :=
| within_here (l : list Block.t) (b : Block.t) :
    In b l -> within l b
| within_below (l : list Block.t) (c b : Block.t) :
    In c l -> within (Block.children c) b -> within l b.

End Outline.

(** ** Concrete hosts and notes

    Used to run the program where a statement below needs an input. *)

Module Sample.

(** A converter that wraps the text in a paragraph. *)
Definition convertToHTMLFile (content format : string) : result HTMLFile.t :=
  Ok (HTMLFile.make ("<p>" ++ content ++ "</p>") [] []).

Definition escapeClozesAndMacroDelimiters (content : string) : string := content.

(** Decimal literals without sign; everything else is NaN. *)
Definition StringToNumber (s : string) : option Z :=
  if negb (Str.isEmpty s) && Str.allDigits s then Some (Str.parseInt s) else None.

Definition JSON_stringify (o : Js.object string) : string :=
  "{" ++ Str.join (map (fun kv => fst kv ++ ":" ++ snd kv) o) ++ "}".

Definition getUUIDFromBlock (b : Block.t) : string := Block.uuid b.

Definition leaf (uuid content : string) : Block.t :=
  Block.make uuid 0 content "markdown" [] [] [] None None None.

Definition node (uuid content : string) (children : list Block.t) : Block.t :=
  Block.make uuid 0 content "markdown" [] children [] None None None.

(** A question with two answers, the first with a detail below it. *)
Definition outline : list Block.t :=
  [ node "b1" "Answer 1" [ node "b11" "Detail" [ leaf "b111" "Fine print" ] ];
    leaf "b2" "Answer 2" ].

Definition card (properties : Js.object Js.value) (tags : list string)
  (children : list Block.t) : MultilineCardNote :=
  newMultilineCardNote "q1" "Question?" "markdown" properties None tags children [].

(** A graph whose pages are [forward] (id 1), [reversed] (id 2),
    [depth-0] (id 50) and [depth-2] (id 52). *)
Definition getPage (page : PageIdentity) : result (option PageEntity.t) :=
  match page with
  | PageName name =>
      if String.eqb name "forward" then Ok (Some (PageEntity.make 1))
      else if String.eqb name "reversed" then Ok (Some (PageEntity.make 2))
      else if String.eqb name "depth-0" then Ok (Some (PageEntity.make 50))
      else if String.eqb name "depth-2" then Ok (Some (PageEntity.make 52))
      else Ok None
  | PageEntityID _ => Ok None
  end.

(** A graph whose page [forward] has the id 0. *)
Definition getPageZero (page : PageIdentity) : result (option PageEntity.t) :=
  match page with
  | PageName name =>
      if String.eqb name "forward" then Ok (Some (PageEntity.make 0))
      else Ok None
  | PageEntityID _ => Ok None
  end.

(** The same graph, on a day the lookup of [reversed] is rejected. *)
Definition getPageRejecting (page : PageIdentity) : result (option PageEntity.t) :=
  match page with
  | PageName name =>
      if String.eqb name "reversed" then Err HostFailure else getPage page
  | PageEntityID _ => getPage page
  end.

(** A card-group block (id 7) tagged [reversed], and its child (id 8, uuid
    [c]), which has no tag of its own. *)
Definition groupBlock : Block.t :=
  Block.make "g" 7 "Capitals #card-group #reversed" "markdown" [] [] [2]
             None None None.

Definition childBlock : Block.t :=
  Block.make "c" 8 "France" "markdown" [] [leaf "c1" "Paris"] []
             (Some 7) None None.

Definition getBlock (block : BlockIdentity) (includeChildren : bool)
  : result (option Block.t) :=
  match block with
  | BlockEntityID id => if id =? 7 then Ok (Some groupBlock) else Ok None
  | BlockUUID uuid =>
      if String.eqb uuid "c" then Ok (Some childBlock) else Ok None
  end.

(** A card with a property whose value is the number 0. *)
Definition countZero : MultilineCardNote :=
  card [("count", VNum 0); ("source", VStr "Chapter 2")] [] outline.

(** A card whose [depth] property is the number 0. *)
Definition depthZero : MultilineCardNote :=
  card [("depth", VNum 0)] [] outline.

(** A card with a [depth] property and two depth tags. *)
Definition twoDepthTags : MultilineCardNote :=
  card [("depth", VNum 5)] ["depth-3"; "reversed"; "depth-1"; "forward"] outline.

(** A card without children, tags or a truthy direction: its [direction]
    property is the given falsy value. *)
Definition bare (direction : Js.value) : MultilineCardNote :=
  card [("direction", direction)] [] [].

(** The note another note type made of the same block. *)
Definition otherNote : Note.t := Note.make "q1" "Question?" "markdown" [] None [].

End Sample.

(** ** More hosts and notes *)

Module Scenario.

(** A converter that fails on the text [Answer 2]. *)
Definition convertToHTMLFile (content format : string) : result HTMLFile.t :=
  if String.eqb content "Answer 2" then Err HostFailure
  else Sample.convertToHTMLFile content format.

(** A block tagged [card] whose full block cannot be fetched. *)
Definition lostBlock : Block.t :=
  Block.make "lost" 9 "Gone #card" "markdown" [] [] [] None None None.

Definition getBlock (block : BlockIdentity) (includeChildren : bool)
  : result (option Block.t) :=
  match block with
  | BlockUUID uuid =>
      if String.eqb uuid "lost" then Err HostFailure
      else Sample.getBlock block includeChildren
  | BlockEntityID _ => Sample.getBlock block includeChildren
  end.

Definition datascriptQueryBlocks (q : Query) : result (list Block.t) :=
  match q with
  | RefsCard => Ok [lostBlock]
  | RefsFlashcard => Ok []
  | ChildrenOfCardGroup => Ok [Sample.childBlock]
  end.

Definition removeUnwantedNotes (notes : list (option MultilineCardNote))
  : result (list MultilineCardNote) :=
  Ok (flat_map (fun n => match n with Some n => [n] | None => [] end) notes).

(** A card with two declared fields, one of them mapped to a property. *)
Definition declared : MultilineCardNote :=
  Sample.card [("anki-model", VStr "Basic");
               ("anki-field-Front", VStr "content");
               ("anki-field-Hint", VStr "hint");
               ("hint", VStr "Think of a river")]
              [] Sample.outline.

(** A card whose model is the number 5. *)
Definition numberedModel : MultilineCardNote :=
  Sample.card [("anki-model", VNum 5)] [] Sample.outline.

(** A reversed card with one answer. *)
Definition reversed : MultilineCardNote :=
  Sample.card [] ["reversed"] [Sample.leaf "a" "Answer"].

End Scenario.

(** * Properties *)

(** ** Lists of tags and strings *)

Lemma includes_In (tags : list string) (tag : string) :
  includes tags tag = true <-> In tag tags.
Proof.
  unfold includes. rewrite existsb_exists. split.
  - intros [x [Hx Heq]]. apply String.eqb_eq in Heq. now subst.
  - intros H. exists tag. split; [assumption | apply String.eqb_refl].
Qed.

Lemma includes_not_In (tags : list string) (tag : string) :
  includes tags tag = false <-> ~ In tag tags.
Proof.
  rewrite <- includes_In. destruct (includes tags tag); split; congruence.
Qed.

Lemma append_empty_r (s : string) : s ++ EmptyString = s.
Proof. induction s as [| c s IH]; simpl; [reflexivity | now rewrite IH]. Qed.

Lemma strictEqStr_true (v : Js.value) (s : string) :
  Js.strictEqStr v s = true <-> v = VStr s.
Proof.
  destruct v; simpl; split; try congruence.
  - intros H. apply String.eqb_eq in H. now subst.
  - intros H. injection H as ->. apply String.eqb_refl.
Qed.

Lemma strictEqStr_false (v : Js.value) (s : string) :
  Js.strictEqStr v s = false <-> v <> VStr s.
Proof.
  rewrite <- strictEqStr_true. destruct (Js.strictEqStr v s); split; congruence.
Qed.

(** ** Card direction *)

(** C1. An explicit [direction] property, one of [->], [<-], [<->], is the
    direction of the card whatever the tags are.  Without one, the card is
    bidirectional when the tags hold both [forward] and [reversed], or hold
    [bidirectional]; else reversed when they hold [reversed]; else forward. *)
Theorem getCardDirection_precedence (n : MultilineCardNote) :
  let direction := Js.get (properties n) "direction" in
  let explicit :=
    direction = VStr "->" \/ direction = VStr "<-" \/ direction = VStr "<->" in
  let both :=
    (In "forward" (tags n) /\ In "reversed" (tags n))
    \/ In "bidirectional" (tags n) in
  (explicit -> getCardDirection n = direction)
  /\ (~ explicit -> both -> getCardDirection n = VStr "<->")
  /\ (~ explicit -> ~ both -> In "reversed" (tags n) ->
      getCardDirection n = VStr "<-")
  /\ (~ explicit -> ~ both -> ~ In "reversed" (tags n) ->
      getCardDirection n = VStr "->").
Proof.
  intros direction explicit both. unfold getCardDirection.
  fold direction.
  assert (Hexp : explicit ->
    negb (Js.strictEqStr direction "->") && negb (Js.strictEqStr direction "<-")
    && negb (Js.strictEqStr direction "<->") = false).
  { intros [H | [H | H]]; rewrite H; reflexivity. }
  assert (Hnexp : ~ explicit ->
    negb (Js.strictEqStr direction "->") && negb (Js.strictEqStr direction "<-")
    && negb (Js.strictEqStr direction "<->") = true).
  { intros H. unfold explicit in H.
    destruct (Js.strictEqStr direction "->") eqn:E1;
      [apply strictEqStr_true in E1; tauto |].
    destruct (Js.strictEqStr direction "<-") eqn:E2;
      [apply strictEqStr_true in E2; tauto |].
    destruct (Js.strictEqStr direction "<->") eqn:E3;
      [apply strictEqStr_true in E3; tauto |].
    reflexivity. }
  assert (Hboth : both ->
    includes (tags n) "reversed" && includes (tags n) "forward"
    || includes (tags n) "bidirectional" = true).
  { intros [[Hf Hr] | Hb].
    - apply includes_In in Hf, Hr. rewrite Hf, Hr. reflexivity.
    - apply includes_In in Hb. rewrite Hb. apply orb_true_r. }
  assert (Hnboth : ~ both ->
    includes (tags n) "reversed" && includes (tags n) "forward"
    || includes (tags n) "bidirectional" = false).
  { intros H. unfold both in H.
    destruct (includes (tags n) "bidirectional") eqn:Eb;
      [apply includes_In in Eb; tauto |].
    destruct (includes (tags n) "reversed") eqn:Er; [| reflexivity].
    destruct (includes (tags n) "forward") eqn:Ef; [| reflexivity].
    apply includes_In in Er, Ef. tauto. }
  repeat split.
  - intros H. now rewrite (Hexp H).
  - intros H1 H2. now rewrite (Hnexp H1), (Hboth H2).
  - intros H1 H2 H3. rewrite (Hnexp H1), (Hnboth H2).
    apply includes_In in H3. now rewrite H3.
  - intros H1 H2 H3. rewrite (Hnexp H1), (Hnboth H2).
    apply includes_not_In in H3. now rewrite H3.
Qed.

(** ** Depth cap *)

Lemma fold_depthStep_no_tag (l : list string) (init : Js.value) :
  (forall t, In t l -> depthTagDigits t = None) ->
  fold_left depthStep l init = init.
Proof.
  revert init. induction l as [| t l IH]; intros init H; simpl.
  - reflexivity.
  - unfold depthStep at 2. rewrite (H t (or_introl eq_refl)).
    apply IH. intros t' Ht'. apply H. now right.
Qed.

Lemma allDigits_string_of_uint (d : Decimal.uint) :
  Str.allDigits (NilEmpty.string_of_uint d) = true.
Proof. induction d; simpl; auto. Qed.

Lemma string_of_uint_nonempty (d : Decimal.uint) :
  Str.isEmpty (NilZero.string_of_uint d) = false.
Proof. destruct d; reflexivity. Qed.

Lemma ofZ_nonneg (N : Z) :
  0 <= N -> Str.ofZ N = NilZero.string_of_uint (N.to_uint (Z.to_N N)).
Proof.
  intros H. unfold Str.ofZ. destruct N as [| p | p]; try reflexivity. lia.
Qed.

Lemma depthTagDigits_prefixed (s : string) :
  depthTagDigits ("depth-" ++ s) =
  if negb (Str.isEmpty s) && Str.allDigits s then Some s else None.
Proof.
  unfold depthTagDigits, Str.startsWith. cbn. destruct (Str.toLowerCase s); reflexivity.
Qed.

(** The tag [depth-<N>] written in decimal is a depth tag, its digits are
    those of [N], and their decimal value is [N]. *)
Lemma depthTag_decimal (N : Z) :
  0 <= N ->
  depthTagDigits ("depth-" ++ Str.ofZ N) = Some (Str.ofZ N)
  /\ Str.parseInt (Str.ofZ N) = N.
Proof.
  intros H. rewrite (ofZ_nonneg N H).
  set (d := N.to_uint (Z.to_N N)).
  assert (Hd : NilZero.string_of_uint d = NilEmpty.string_of_uint d
               \/ (d = Decimal.Nil /\ NilZero.string_of_uint d = "0")).
  { destruct d; simpl; auto. }
  split.
  - rewrite depthTagDigits_prefixed, string_of_uint_nonempty.
    destruct Hd as [-> | [_ ->]]; [| reflexivity].
    now rewrite allDigits_string_of_uint.
  - unfold Str.parseInt.
    assert (Hnil : d <> Decimal.Nil).
    { unfold d. destruct (Z.to_N N); simpl; [discriminate |].
      apply DecimalPos.Unsigned.to_uint_nonnil. }
    destruct Hd as [E | [E _]]; [| contradiction].
    rewrite E, NilEmpty.usu. unfold d. rewrite DecimalN.Unsigned.of_to. lia.
Qed.

(** Without a depth tag the cap is the [depth] property when that is
    truthy, and 9999 otherwise. *)
Lemma getChildrenMaxDepth_default (n : MultilineCardNote) :
  (forall t, In t (tags n) -> depthTagDigits t = None) ->
  getChildrenMaxDepth n
  = Js.or (Js.get (properties n) "depth") (VNum 9999).
Proof.
  intros H. unfold getChildrenMaxDepth.
  now rewrite (fold_depthStep_no_tag _ _ H).
Qed.

(** The last depth tag gives the cap. *)
Lemma getChildrenMaxDepth_last_tag (n : MultilineCardNote)
  (before : list string) (t : string) (after : list string) (digits : string) :
  tags n = (before ++ t :: after)%list ->
  depthTagDigits t = Some digits ->
  (forall t', In t' after -> depthTagDigits t' = None) ->
  getChildrenMaxDepth n = depthStep VUndef t.
Proof.
  intros Htags Ht Hafter.
  unfold getChildrenMaxDepth. rewrite Htags, fold_left_app. simpl.
  rewrite (fold_depthStep_no_tag after _ Hafter).
  unfold depthStep. now rewrite Ht.
Qed.

(** C3. Without a depth tag, [getChildrenMaxDepth] returns the value of the
    [depth] property when the note has one, a positive integer, and 9999
    when the note has none.  With depth tags, the last one in the order of
    [tags] gives the result, whatever the property and the earlier tags are:
    the tag [depth-<N>] gives [N], for every [N] a Number holds exactly. *)
Theorem getChildrenMaxDepth_last_tag_wins (n : MultilineCardNote) :
  ((forall t, In t (tags n) -> depthTagDigits t = None) ->
   (forall d, 0 < d ->
              Js.own (properties n) "depth" = Some (VNum d) ->
              getChildrenMaxDepth n = VNum d)
   /\ (Js.own (properties n) "depth" = None ->
       getChildrenMaxDepth n = VNum 9999))
  /\ (forall before t after digits,
        tags n = (before ++ t :: after)%list ->
        depthTagDigits t = Some digits ->
        Str.parseInt digits <= Str.maxExact ->
        (forall t', In t' after -> depthTagDigits t' = None) ->
        getChildrenMaxDepth n = VNum (Str.parseInt digits))
  /\ (forall before after N,
        0 <= N <= Str.maxExact ->
        tags n = (before ++ ("depth-" ++ Str.ofZ N)%string :: after)%list ->
        (forall t', In t' after -> depthTagDigits t' = None) ->
        getChildrenMaxDepth n = VNum N).
Proof.
  split; [| split].
  - intros H. rewrite (getChildrenMaxDepth_default n H). unfold Js.get. split.
    + intros d Hd ->. unfold Js.or. cbn [Js.truthy].
      replace (d =? 0) with false by (symmetry; apply Z.eqb_neq; lia).
      reflexivity.
    + intros ->. reflexivity.
  - intros before t after digits Htags Ht _ Hafter.
    rewrite (getChildrenMaxDepth_last_tag n before t after digits Htags Ht Hafter).
    unfold depthStep. now rewrite Ht.
  - intros before after N [HN _] Htags Hafter.
    destruct (depthTag_decimal N HN) as [Hd Hp].
    rewrite (getChildrenMaxDepth_last_tag n before _ after _ Htags Hd Hafter).
    unfold depthStep. now rewrite Hd, Hp.
Qed.

(** The card of [Sample.twoDepthTags], whose [depth] property is 5, has the
    depth of its last depth tag. *)
Lemma getChildrenMaxDepth_last_tag_wins_witness :
  getChildrenMaxDepth Sample.twoDepthTags = VNum 1.
Proof.
  apply (proj2 (proj2 (getChildrenMaxDepth_last_tag_wins Sample.twoDepthTags))
           ["depth-3"; "reversed"] ["forward"] 1).
  - split; [lia | vm_compute; discriminate].
  - reflexivity.
  - intros t' [<- | []]. reflexivity.
Defined.

(** A [depth] property of 0 is falsy and counts as no property: the cap is
    9999. *)
Lemma getChildrenMaxDepth_depth_zero :
  Js.own (properties Sample.depthZero) "depth" = Some (VNum 0)
  /\ tags Sample.depthZero = []
  /\ getChildrenMaxDepth Sample.depthZero = VNum 9999.
Proof. repeat split. Qed.

(** ** Children rendering *)

Section Rendering.

Variable convertToHTMLFile : string -> string -> result HTMLFile.t.
Variable escapeClozesAndMacroDelimiters : string -> string.
Variable StringToNumber : string -> option Z.

Local Notation appendChild' :=
  (appendChild convertToHTMLFile escapeClozesAndMacroDelimiters StringToNumber).
Local Notation getChildrenListHTML' :=
  (getChildrenListHTML convertToHTMLFile escapeClozesAndMacroDelimiters
                       StringToNumber).

(** The loop body, with the recursive call written as in the source. *)
Lemma appendChild_eq (maxDepth : Js.value) (level : Z) (acc : string)
  (child : Block.t) :
  appendChild' maxDepth level acc child =
  (file <- convertToHTMLFile
             (sanitizedChildContent escapeClozesAndMacroDelimiters child)
             (Block.format child) ;;
   html <-
     (if (0 <? length (Block.children child))%nat then
        below <- getChildrenListHTML' maxDepth (Block.children child) (level + 1) ;;
        Ok (HTMLFile.html file ++ below)
      else Ok (HTMLFile.html file)) ;;
   Ok (((acc ++ liOpen child) ++ html) ++ "</li>")).
Proof. destruct child; reflexivity. Qed.

Lemma geNumber_VNum (level N : Z) :
  geNumber StringToNumber level (VNum N) = (N <=? level).
Proof. reflexivity. Qed.

(** At or below the cap nothing is rendered, whatever the list is. *)
Lemma getChildrenListHTML_capped (N level : Z) (childrenList : list Block.t) :
  N <= level -> getChildrenListHTML' (VNum N) childrenList level = Ok EmptyString.
Proof.
  intros H. unfold getChildrenListHTML. rewrite geNumber_VNum.
  now apply Z.leb_le in H as ->.
Qed.

(** Replacing the children of a block changes only the nested list. *)
Lemma appendChild_withChildren (maxDepth : Js.value) (level : Z) (acc : string)
  (child : Block.t) (cs : list Block.t) :
  appendChild' maxDepth level acc (Block.withChildren child cs) =
  (file <- convertToHTMLFile
             (sanitizedChildContent escapeClozesAndMacroDelimiters child)
             (Block.format child) ;;
   html <-
     (if (0 <? length cs)%nat then
        below <- getChildrenListHTML' maxDepth cs (level + 1) ;;
        Ok (HTMLFile.html file ++ below)
      else Ok (HTMLFile.html file)) ;;
   Ok (((acc ++ liOpen child) ++ html) ++ "</li>")).
Proof. rewrite appendChild_eq. destruct child; reflexivity. Qed.

Lemma cutBelow_S (k : nat) (b : Block.t) :
  Block.cutBelow (S k) b
  = Block.withChildren b (map (Block.cutBelow k) (Block.children b)).
Proof. reflexivity. Qed.

Lemma cutBelow_0 (b : Block.t) : Block.cutBelow 0 b = Block.withChildren b [].
Proof. reflexivity. Qed.

Lemma appendChild_cutBelow_0 (N level : Z) (acc : string) (child : Block.t) :
  N <= level + 1 ->
  appendChild' (VNum N) level acc (Block.cutBelow 0 child)
  = appendChild' (VNum N) level acc child.
Proof.
  intros H. rewrite cutBelow_0, appendChild_withChildren, appendChild_eq.
  destruct (convertToHTMLFile _ _) as [file | e]; [| reflexivity].
  cbn -[Nat.ltb]. destruct (0 <? length (Block.children child))%nat eqn:E.
  - rewrite (getChildrenListHTML_capped N (level + 1) (Block.children child) H).
    cbn. now rewrite append_empty_r.
  - reflexivity.
Qed.

(** Rendering at [level] under the cap [N] reads the items of the list and
    their descendants down to [N - level - 1] levels below them only. *)
Lemma foldM_appendChild_cutBelow (k : nat) :
  forall (N level : Z) (childrenList : list Block.t) (acc : string),
    N <= level + 1 + Z.of_nat k ->
    foldM (appendChild' (VNum N) level) (map (Block.cutBelow k) childrenList) acc
    = foldM (appendChild' (VNum N) level) childrenList acc.
Proof.
  induction k as [| k IH]; intros N level childrenList.
  - induction childrenList as [| child rest IHl]; intros acc H; [reflexivity |].
    cbn [map foldM]. rewrite appendChild_cutBelow_0 by lia.
    destruct (appendChild' (VNum N) level acc child); [| reflexivity].
    cbn. now apply IHl.
  - induction childrenList as [| child rest IHl]; intros acc H; [reflexivity |].
    cbn [map foldM].
    assert (E : appendChild' (VNum N) level acc (Block.cutBelow (S k) child)
                = appendChild' (VNum N) level acc child).
    { rewrite cutBelow_S, appendChild_withChildren, appendChild_eq.
      rewrite length_map. unfold getChildrenListHTML.
      destruct (geNumber StringToNumber (level + 1) (VNum N)) eqn:G;
        [reflexivity |].
      rewrite IH by lia. reflexivity. }
    rewrite E. destruct (appendChild' (VNum N) level acc child); [| reflexivity].
    cbn. now apply IHl.
Qed.

Lemma getChildrenListHTML_cutBelow (k : nat) (N level : Z)
  (childrenList : list Block.t) :
  N <= level + 1 + Z.of_nat k ->
  getChildrenListHTML' (VNum N) (map (Block.cutBelow k) childrenList) level
  = getChildrenListHTML' (VNum N) childrenList level.
Proof.
  intros H. unfold getChildrenListHTML.
  now rewrite foldM_appendChild_cutBelow.
Qed.

(** C2. Under the cap [N] the HTML of a list of children is the HTML of the
    same list with every descendant more than [N] levels below the direct
    children removed: nothing of such a descendant reaches the output.  Under
    the cap 0 the HTML is the empty string. *)
Theorem getChildrenListHTML_depth_cap (N : Z) (childrenList : list Block.t) :
  getChildrenListHTML' (VNum N) childrenList 0
  = getChildrenListHTML' (VNum N)
      (map (Block.cutBelow (Z.to_nat N)) childrenList) 0
  /\ getChildrenListHTML' (VNum 0) childrenList 0 = Ok EmptyString.
Proof.
  split.
  - destruct (Z.le_gt_cases N 0) as [H | H].
    + now rewrite !getChildrenListHTML_capped.
    + symmetry. apply getChildrenListHTML_cutBelow. lia.
  - now apply getChildrenListHTML_capped.
Qed.

(** X3. The cap is tight: the descendants [N] levels below the direct
    children are not read either. *)
Lemma getChildrenListHTML_depth_cap_tight (N : Z) (childrenList : list Block.t) :
  0 < N ->
  getChildrenListHTML' (VNum N) childrenList 0
  = getChildrenListHTML' (VNum N)
      (map (Block.cutBelow (Z.to_nat (N - 1))) childrenList) 0.
Proof.
  intros H. symmetry. apply getChildrenListHTML_cutBelow. lia.
Qed.

(** Two lists that differ only more than [N] levels below the direct
    children render alike. *)
Lemma getChildrenListHTML_same_above_cap (N : Z) (l1 l2 : list Block.t) :
  map (Block.cutBelow (Z.to_nat N)) l1 = map (Block.cutBelow (Z.to_nat N)) l2 ->
  getChildrenListHTML' (VNum N) l1 0 = getChildrenListHTML' (VNum N) l2 0.
Proof.
  intros H. destruct (Z.le_gt_cases N 0) as [H0 | H0].
  - now rewrite !getChildrenListHTML_capped.
  - rewrite <- (getChildrenListHTML_cutBelow (Z.to_nat N) N 0 l1) by lia.
    rewrite <- (getChildrenListHTML_cutBelow (Z.to_nat N) N 0 l2) by lia.
    now rewrite H.
Qed.

(** Induction on a block, with the property known of its children. *)
Section BlockInduction.

Variable P : Block.t -> Prop.
Hypothesis step : forall b, Forall P (Block.children b) -> P b.

Fixpoint block_induction (b : Block.t) : P b :=
  step b
    ((fix all (l : list Block.t) : Forall P l :=
        match l with
        | [] => Forall_nil P
        | x :: l' => Forall_cons x (block_induction x) (all l')
        end) (Block.children b)).

End BlockInduction.

(** The converter answers on every text. *)
Definition converterAnswers : Prop :=
  forall content format, exists file, convertToHTMLFile content format = Ok file.

Lemma foldM_appendChild_returns (maxDepth : Js.value) (level : Z)
  (childrenList : list Block.t) :
  Forall (fun child => forall level acc,
            exists html, appendChild' maxDepth level acc child = Ok html)
         childrenList ->
  forall acc,
    exists html, foldM (appendChild' maxDepth level) childrenList acc = Ok html.
Proof.
  induction 1 as [| child rest Hchild _ IH]; intros acc.
  - now exists acc.
  - cbn [foldM]. destruct (Hchild level acc) as [html ->]. cbn [bind]. apply IH.
Qed.

Lemma appendChild_returns (maxDepth : Js.value) :
  converterAnswers ->
  forall child level acc,
    exists html, appendChild' maxDepth level acc child = Ok html.
Proof.
  intros Hconv child. induction child as [child IH] using block_induction.
  intros level acc. rewrite appendChild_eq.
  destruct (Hconv (sanitizedChildContent escapeClozesAndMacroDelimiters child)
                  (Block.format child)) as [file ->].
  cbn [bind]. destruct (0 <? length (Block.children child))%nat.
  - unfold getChildrenListHTML.
    destruct (geNumber StringToNumber (level + 1) maxDepth).
    + cbn [bind]. eexists. reflexivity.
    + destruct (foldM_appendChild_returns maxDepth (level + 1) _ IH ulOpen)
        as [html ->].
      cbn [bind]. eexists. reflexivity.
  - cbn [bind]. eexists. reflexivity.
Qed.

(** With a converter that answers, the children are rendered, whatever the
    cap is. *)
Lemma getChildrenListHTML_returns (maxDepth : Js.value) (level : Z)
  (childrenList : list Block.t) :
  converterAnswers ->
  exists html, getChildrenListHTML' maxDepth childrenList level = Ok html.
Proof.
  intros Hconv. unfold getChildrenListHTML.
  destruct (geNumber StringToNumber level maxDepth); [eexists; reflexivity |].
  destruct (foldM_appendChild_returns maxDepth level childrenList
              (proj2 (Forall_forall _ _)
                     (fun child _ => appendChild_returns maxDepth Hconv child))
              ulOpen) as [html ->].
  cbn [bind]. eexists. reflexivity.
Qed.

End Rendering.

(** ** Field resolution *)

Section Fields.

Variable convertToHTMLFile : string -> string -> result HTMLFile.t.
Variable escapeClozesAndMacroDelimiters : string -> string.
Variable StringToNumber : string -> option Z.
Variable JSON_stringify : Js.object string -> string.

Local Notation getFieldContent' :=
  (getFieldContent convertToHTMLFile escapeClozesAndMacroDelimiters
                   StringToNumber).
Local Notation getDeclaredFieldContent' :=
  (getDeclaredFieldContent convertToHTMLFile escapeClozesAndMacroDelimiters
                           StringToNumber).
Local Notation getCard' :=
  (getCard convertToHTMLFile escapeClozesAndMacroDelimiters StringToNumber).
Local Notation getClozedContentHTML' :=
  (getClozedContentHTML convertToHTMLFile escapeClozesAndMacroDelimiters
                        StringToNumber JSON_stringify).

Lemma callToString_truthy (v : Js.value) :
  Js.truthy v = true -> callToString v = Ok (Js.toString v).
Proof. destruct v; simpl; intros H; try discriminate; reflexivity. Qed.

(** A mapping other than the two reserved words is looked up as a property,
    and the lookup never throws. *)
Lemma getFieldContent_lookup (n : MultilineCardNote) (mapping : string) :
  mapping <> "content" -> mapping <> "children" ->
  getFieldContent' n (VStr mapping) =
  Ok (let property := Js.get (properties n) mapping in
      if Js.truthy property then Js.toString property else EmptyString).
Proof.
  intros Hc Hch. unfold getFieldContent.
  assert (E1 : Js.strictEqStr (VStr mapping) "content" = false).
  { apply strictEqStr_false. congruence. }
  assert (E2 : Js.strictEqStr (VStr mapping) "children" = false).
  { apply strictEqStr_false. congruence. }
  rewrite E1, E2. cbn [Js.toString]. cbv zeta.
  destruct (Js.truthy (Js.get (properties n) mapping)) eqn:T; [| reflexivity].
  now apply callToString_truthy.
Qed.

(** C4, as the code has it.  For a mapping other than [content] and
    [children], field resolution never throws.  When the note has the property
    it returns the string form of a truthy value, and the empty string for a
    falsy one (0, the empty string, [false], [null]).  When the note has no
    such property, and the name is not one every object inherits, it returns
    the empty string. *)
Theorem getFieldContent_property (n : MultilineCardNote) (mapping : string) :
  mapping <> "content" -> mapping <> "children" ->
  (exists html, getFieldContent' n (VStr mapping) = Ok html)
  /\ (forall value,
        Js.own (properties n) mapping = Some value ->
        getFieldContent' n (VStr mapping) =
        Ok (if Js.truthy value then Js.toString value else EmptyString))
  /\ (Js.own (properties n) mapping = None ->
      Js.own Js.objectPrototype mapping = None ->
      getFieldContent' n (VStr mapping) = Ok EmptyString).
Proof.
  intros Hc Hch. rewrite (getFieldContent_lookup n mapping Hc Hch).
  split; [eexists; reflexivity |]. unfold Js.get. split.
  - intros value ->. reflexivity.
  - intros -> ->. reflexivity.
Qed.

(** The fields declared by a note that declares none. *)
Lemma getDeclaredFieldContent_none (n : MultilineCardNote) :
  declaresNoField n -> getDeclaredFieldContent' n = Ok [].
Proof.
  unfold declaresNoField, getDeclaredFieldContent.
  generalize (@nil (string * string)) as acc.
  induction (properties n) as [| [key value] rest IH]; intros acc H.
  - reflexivity.
  - cbn [foldM fst snd]. rewrite (H key value (or_introl eq_refl)).
    cbn [bind]. apply IH. intros k v Hin. apply (H k v). now right.
Qed.

(** The card of a note that declares no field. *)
Lemma getCard_defaults (n : MultilineCardNote) :
  declaresNoField n ->
  getCard' n =
  (let direction := getCardDirection n in
   mainContent <-
     getFieldContent' n
       (VStr (if Js.strictEqStr direction "<-" || Js.strictEqStr direction "<->"
              then "children" else "content")) ;;
   let ankiModel := Js.or (Js.get (properties n) "anki-model") (VStr "Basic") in
   lower <- callToLowerCase ankiModel ;;
   if Str.includes lower "cloze" then
     Ok (mkCard ankiModel [("Text", mainContent)] mainContent)
   else
     back <- getFieldContent' n (VStr "children") ;;
     Ok (mkCard ankiModel [("Front", mainContent); ("Back", back)] mainContent)).
Proof.
  intros H. unfold getCard. rewrite (getDeclaredFieldContent_none n H).
  cbn [bind]. cbv zeta.
  destruct (Js.strictEqStr (getCardDirection n) "<-"
            || Js.strictEqStr (getCardDirection n) "<->");
    (destruct (getFieldContent' n _) as [main | e]; [| reflexivity]);
    cbn [bind Js.keys map length Nat.eqb];
    (destruct (callToLowerCase _) as [lower | e]; [| reflexivity]);
    cbn [bind];
    (destruct (Str.includes lower "cloze"); [reflexivity |]);
    cbn [bind];
    (destruct (getFieldContent' n (VStr "children")) as [back | e];
       reflexivity).
Qed.

Lemma getClozedContentHTML_card (n : MultilineCardNote) (file : HTMLFile.t) :
  getClozedContentHTML' n = Ok file ->
  exists card,
    getCard' n = Ok card
    /\ file = HTMLFile.make (cardHTML JSON_stringify card) [] [].
Proof.
  unfold getClozedContentHTML. destruct (getCard' n) as [card | e]; cbn.
  - intros H. injection H as <-. now exists card.
  - discriminate.
Qed.

(** The main content of a card is resolved before the defaults are. *)
Lemma getCard_mainContent (n : MultilineCardNote) (card : Card) :
  getCard' n = Ok card ->
  getFieldContent' n
    (VStr (if Js.strictEqStr (getCardDirection n) "<-"
              || Js.strictEqStr (getCardDirection n) "<->"
           then "children" else "content"))
  = Ok (mainContent card).
Proof.
  unfold getCard.
  destruct (getDeclaredFieldContent' n) as [fields | e]; [| discriminate].
  cbn [bind]. cbv zeta.
  destruct (Js.strictEqStr (getCardDirection n) "<-"
            || Js.strictEqStr (getCardDirection n) "<->");
    (destruct (getFieldContent' n _) as [main | e]; [| discriminate]);
    cbn [bind];
    (match goal with
     | |- (x <- ?m ;; _) = _ -> _ => destruct m; [| discriminate]
     end);
    cbn [bind]; intros H; injection H as <-; reflexivity.
Qed.

(** C5. The card of a note that declares no field has the fields synthesized
    from its model name, the [anki-model] property or else [Basic]: for a
    name that contains [cloze] in any case the one field [Text], which holds
    the main content; for another name the two fields [Front], which holds
    the main content, and [Back], which holds the resolved children. *)
Theorem getClozedContentHTML_default_fields (n : MultilineCardNote)
  (file : HTMLFile.t) :
  declaresNoField n ->
  getClozedContentHTML' n = Ok file ->
  exists card model,
    getCard' n = Ok card
    /\ HTMLFile.html file = cardHTML JSON_stringify card
    /\ Js.or (Js.get (properties n) "anki-model") (VStr "Basic") = VStr model
    /\ ankiModel card = VStr model
    /\ ((Str.includes (Str.toLowerCase model) "cloze" = true
         /\ fieldContent card = [("Text", mainContent card)])
        \/ (Str.includes (Str.toLowerCase model) "cloze" = false
            /\ exists back,
                getFieldContent' n (VStr "children") = Ok back
                /\ fieldContent card
                   = [("Front", mainContent card); ("Back", back)])).
Proof.
  intros Hnone Hfile.
  destruct (getClozedContentHTML_card n file Hfile) as [card [Hcard ->]].
  exists card. pose proof Hcard as Hdef.
  rewrite (getCard_defaults n Hnone) in Hdef. cbv zeta in Hdef.
  destruct (getFieldContent' n _) as [main | e] in Hdef; [| discriminate].
  cbn [bind] in Hdef.
  destruct (Js.or (Js.get (properties n) "anki-model") (VStr "Basic"))
    as [| | b | z | model | l | s] eqn:Emodel; try discriminate.
  exists model. cbn [callToLowerCase bind] in Hdef.
  destruct (Str.includes (Str.toLowerCase model) "cloze") eqn:Ecloze.
  - injection Hdef as Hdef. subst card. cbn.
    split; [assumption |]. do 3 (split; [reflexivity |]). left. now split.
  - destruct (getFieldContent' n (VStr "children")) as [back | e] eqn:Eback;
      [| discriminate].
    cbn [bind] in Hdef. injection Hdef as Hdef. subst card. cbn.
    split; [assumption |]. do 3 (split; [reflexivity |]).
    right. split; [reflexivity |]. exists back. now split.
Qed.

(** C6. The visible main content of the assembled card is the resolved
    [children] field when the direction of the card is [<-] or [<->], and the
    resolved [content] field otherwise. *)
Theorem getClozedContentHTML_main_content (n : MultilineCardNote)
  (file : HTMLFile.t) :
  getClozedContentHTML' n = Ok file ->
  exists card,
    getCard' n = Ok card
    /\ HTMLFile.html file = cardHTML JSON_stringify card
    /\ (getCardDirection n = VStr "<-" \/ getCardDirection n = VStr "<->" ->
        getFieldContent' n (VStr "children") = Ok (mainContent card))
    /\ (~ (getCardDirection n = VStr "<-" \/ getCardDirection n = VStr "<->") ->
        getFieldContent' n (VStr "content") = Ok (mainContent card)).
Proof.
  intros Hfile.
  destruct (getClozedContentHTML_card n file Hfile) as [card [Hcard ->]].
  exists card. pose proof (getCard_mainContent n card Hcard) as Hmain.
  repeat split; try assumption.
  - intros [H | H]; rewrite H in Hmain; exact Hmain.
  - intros H.
    destruct (Js.strictEqStr (getCardDirection n) "<-") eqn:E1;
      [apply strictEqStr_true in E1; tauto |].
    destruct (Js.strictEqStr (getCardDirection n) "<->") eqn:E2;
      [apply strictEqStr_true in E2; tauto |].
    exact Hmain.
Qed.

(** With a converter that answers, every mapping resolves. *)
Lemma getFieldContent_returns (n : MultilineCardNote) (fieldMapping : Js.value) :
  converterAnswers convertToHTMLFile ->
  exists html, getFieldContent' n fieldMapping = Ok html.
Proof.
  intros Hconv. unfold getFieldContent.
  destruct (Js.strictEqStr fieldMapping "content").
  - destruct (Hconv (Note.content (note n)) (Note.format (note n))) as [file ->].
    cbn [bind]. eexists. reflexivity.
  - destruct (Js.strictEqStr fieldMapping "children").
    + unfold getChildrenContent.
      destruct (getChildrenListHTML_returns convertToHTMLFile
                  escapeClozesAndMacroDelimiters StringToNumber
                  (getChildrenMaxDepth n) 0 (children n) Hconv) as [html ->].
      cbn [bind]. eexists. reflexivity.
    + cbv zeta.
      destruct (Js.truthy (Js.get (properties n) (Js.toString fieldMapping)))
        eqn:T; [| eexists; reflexivity].
      rewrite (callToString_truthy _ T). eexists. reflexivity.
Qed.

Lemma getDeclaredFieldContent_returns (n : MultilineCardNote) :
  converterAnswers convertToHTMLFile ->
  exists fields, getDeclaredFieldContent' n = Ok fields.
Proof.
  intros Hconv. unfold getDeclaredFieldContent.
  generalize (@nil (string * string)) as acc.
  induction (properties n) as [| [key value] rest IH]; intros acc.
  - now exists acc.
  - cbn [foldM fst snd]. destruct (Str.startsWith key "anki-field-").
    + destruct (getFieldContent_returns n value Hconv) as [html ->].
      cbn [bind]. apply IH.
    + cbn [bind]. apply IH.
Qed.

(** X17. With a converter that answers and a model name that is a string,
    the card is assembled, whatever the properties, tags and children of the
    note are. *)
Lemma getClozedContentHTML_returns (n : MultilineCardNote) (model : string) :
  converterAnswers convertToHTMLFile ->
  Js.or (Js.get (properties n) "anki-model") (VStr "Basic") = VStr model ->
  exists file, getClozedContentHTML' n = Ok file.
Proof.
  intros Hconv Hmodel. unfold getClozedContentHTML, getCard.
  destruct (getDeclaredFieldContent_returns n Hconv) as [fields ->].
  cbn [bind]. cbv zeta. rewrite Hmodel.
  assert (Hmain : exists main,
            (if Js.strictEqStr (getCardDirection n) "<-"
                || Js.strictEqStr (getCardDirection n) "<->"
             then getFieldContent' n (VStr "children")
             else getFieldContent' n (VStr "content")) = Ok main).
  { destruct (_ || _); now apply getFieldContent_returns. }
  destruct Hmain as [main ->]. cbn [bind callToLowerCase].
  destruct (length (Js.keys fields) =? 0)%nat.
  - cbn [bind]. destruct (Str.includes (Str.toLowerCase model) "cloze").
    + cbn [bind]. eexists. reflexivity.
    + destruct (getFieldContent_returns n (VStr "children") Hconv) as [back ->].
      cbn [bind]. eexists. reflexivity.
  - cbn [bind]. eexists. reflexivity.
Qed.

End Fields.

(** ** Tag resolution *)

Lemma setHas_In (tagIds : list Z) (id : Z) :
  setHas tagIds id = true <-> In id tagIds.
Proof.
  unfold setHas. rewrite existsb_exists. split.
  - intros [x [Hx Heq]]. apply Z.eqb_eq in Heq. now subst.
  - intros H. exists id. split; [assumption | apply Z.eqb_refl].
Qed.

(** A looked-up page counts when it exists, its id is not 0 and the id is
    among the tag ids. *)
Lemma pageMatches_spec (tagIds : list Z) (tagPage : option PageEntity.t) :
  pageMatches tagIds tagPage = true <->
  exists p, tagPage = Some p /\ PageEntity.id p <> 0 /\ In (PageEntity.id p) tagIds.
Proof.
  unfold pageMatches. destruct tagPage as [p |].
  - rewrite andb_true_iff, negb_true_iff, Z.eqb_neq, setHas_In. split.
    + intros [H1 H2]. now exists p.
    + intros [q [Hq [H1 H2]]]. injection Hq as ->. now split.
  - split; [discriminate | intros [p [H _]]; discriminate].
Qed.

Section Tags.

Variable getPage : PageIdentity -> result (option PageEntity.t).

Local Notation matchStep' := (matchStep getPage).
Local Notation lookupMatches' := (lookupMatches getPage).

Lemma matchStep_ok (tagIds : list Z) (matched : list string) (name : string)
  (tagPage : option PageEntity.t) :
  getPage (PageName name) = Ok tagPage ->
  matchStep' tagIds matched name
  = Ok (if pageMatches tagIds tagPage then (matched ++ [name])%list else matched).
Proof. unfold matchStep. now intros ->. Qed.

Lemma matchStep_err (tagIds : list Z) (matched : list string) (name : string)
  (e : exn) :
  getPage (PageName name) = Err e -> matchStep' tagIds matched name = Err e.
Proof. unfold matchStep. now intros ->. Qed.

Lemma matchTagNamesWithTagIds_fold (tagIds : list Z) (tagNames : list string) :
  matchTagNamesWithTagIds getPage tagIds tagNames
  = foldM (matchStep' tagIds) tagNames [].
Proof. reflexivity. Qed.

Lemma foldM_matchStep_ok (tagIds : list Z) (tagNames : list string) :
  forall matched,
    (forall name, In name tagNames ->
                  exists tagPage, getPage (PageName name) = Ok tagPage) ->
    foldM (matchStep' tagIds) tagNames matched
    = Ok (matched ++ filter (lookupMatches' tagIds) tagNames)%list.
Proof.
  induction tagNames as [| name rest IH]; intros matched H.
  - cbn. now rewrite app_nil_r.
  - cbn [foldM filter]. unfold lookupMatches at 1.
    destruct (H name (or_introl eq_refl)) as [tagPage Hp].
    rewrite (matchStep_ok tagIds matched name tagPage Hp), Hp. cbn [bind].
    rewrite IH by (intros name' Hin; apply H; now right).
    destruct (pageMatches tagIds tagPage); [| reflexivity].
    now rewrite <- app_assoc.
Qed.

Lemma foldM_matchStep_err (tagIds : list Z) (before : list string) :
  forall matched name after e,
    (forall name', In name' before ->
                   exists tagPage, getPage (PageName name') = Ok tagPage) ->
    getPage (PageName name) = Err e ->
    foldM (matchStep' tagIds) (before ++ name :: after) matched = Err e.
Proof.
  induction before as [| b rest IH]; intros matched name after e H He.
  - cbn. now rewrite (matchStep_err tagIds matched name e He).
  - cbn [app foldM].
    destruct (H b (or_introl eq_refl)) as [tagPage Hp].
    rewrite (matchStep_ok tagIds matched b tagPage Hp). cbn [bind].
    apply IH; [| assumption]. intros name' Hin. apply H. now right.
Qed.

(** Whatever the lookups do, a resolved list is made of candidates, each at
    most as often as it is a candidate and in their order. *)
Lemma foldM_matchStep_incl (tagIds : list Z) (tagNames : list string) :
  forall matched tags,
    foldM (matchStep' tagIds) tagNames matched = Ok tags ->
    exists found, tags = (matched ++ found)%list /\ incl found tagNames.
Proof.
  induction tagNames as [| name rest IH]; intros matched tags H.
  - cbn in H. injection H as <-. exists []. split; [now rewrite app_nil_r |].
    apply incl_nil_l.
  - cbn [foldM] in H.
    destruct (getPage (PageName name)) as [tagPage | e] eqn:Hp.
    + rewrite (matchStep_ok tagIds matched name tagPage Hp) in H.
      cbn [bind] in H. apply IH in H. destruct H as [found [-> Hincl]].
      destruct (pageMatches tagIds tagPage).
      * exists (name :: found). split; [now rewrite <- app_assoc |].
        intros x [<- | Hx]; [now left | right; now apply Hincl].
      * exists found. split; [reflexivity |]. now apply incl_tl.
    + rewrite (matchStep_err tagIds matched name e Hp) in H. discriminate.
Qed.

(** C8, as the code has it.  When every lookup answers, the result is the
    candidates whose page exists with an id that is not 0 and is one of the
    tag ids, in the order of the candidates.  When a lookup is rejected, the
    whole resolution is rejected with that error. *)
Theorem matchTagNamesWithTagIds_candidates (tagIds : list Z)
  (tagNames : list string) :
  ((forall name, In name tagNames ->
                 exists tagPage, getPage (PageName name) = Ok tagPage) ->
   matchTagNamesWithTagIds getPage tagIds tagNames
   = Ok (filter (lookupMatches' tagIds) tagNames))
  /\ (forall name,
        lookupMatches' tagIds name = true <->
        exists p, getPage (PageName name) = Ok (Some p)
                  /\ PageEntity.id p <> 0 /\ In (PageEntity.id p) tagIds)
  /\ (forall before name after e,
        tagNames = (before ++ name :: after)%list ->
        (forall name', In name' before ->
                       exists tagPage, getPage (PageName name') = Ok tagPage) ->
        getPage (PageName name) = Err e ->
        matchTagNamesWithTagIds getPage tagIds tagNames = Err e).
Proof.
  split; [| split].
  - intros H. rewrite matchTagNamesWithTagIds_fold.
    now rewrite (foldM_matchStep_ok tagIds tagNames [] H).
  - intros name. unfold lookupMatches.
    destruct (getPage (PageName name)) as [tagPage | e].
    + rewrite pageMatches_spec. split.
      * intros [p [-> H]]. now exists p.
      * intros [p [H1 H2]]. injection H1 as ->. now exists p.
    + split; [discriminate | intros [p [H _]]; discriminate].
  - intros before name after e -> Hbefore He.
    rewrite matchTagNamesWithTagIds_fold.
    now apply foldM_matchStep_err.
Qed.

(** The relevant tags of a block are candidates of [getRelevantTags]. *)
Lemma getRelevantTags_incl (tagIds : list Z) (tags : list string) :
  getRelevantTags getPage tagIds = Ok tags -> incl tags relevantTagNames.
Proof.
  unfold getRelevantTags. rewrite matchTagNamesWithTagIds_fold.
  destruct (foldM _ _ _) as [found | e] eqn:E; [| discriminate].
  cbn [bind]. rewrite map_id. intros H. injection H as <-.
  apply foldM_matchStep_incl in E. destruct E as [found' [-> Hincl]].
  exact Hincl.
Qed.

End Tags.

(** ** Notes of card-group children *)

Section Extraction.

Variable getPage : PageIdentity -> result (option PageEntity.t).
Variable getBlock : BlockIdentity -> bool -> result (option Block.t).
Variable getUUIDFromBlock : Block.t -> string.

Local Notation getRelevantTags' := (getRelevantTags getPage).
Local Notation getTagsOfParent' := (getTagsOfParent getPage getBlock).
Local Notation addTagsFromParentCardGroup' :=
  (addTagsFromParentCardGroup getPage getBlock).
Local Notation getNoteOfBlock' :=
  (getNoteOfBlock getPage getBlock getUUIDFromBlock).

Lemma chooseTags_own (own fromParent : list string) :
  own <> [] -> chooseTags own fromParent = own.
Proof. destruct own; [congruence | reflexivity]. Qed.

Lemma chooseTags_parent (fromParent : list string) :
  chooseTags [] fromParent = fromParent.
Proof. reflexivity. Qed.

(** The tags of the note of a block are chosen between the relevant tags of
    the full block and the tags the block carries from its parent. *)
Lemma getNoteOfBlock_tags (blockEntity : Block.t) (n : MultilineCardNote) :
  getNoteOfBlock' blockEntity = Ok (Some n) ->
  exists fullBlock own,
    getBlock (BlockUUID (getUUIDFromBlock blockEntity)) true = Ok (Some fullBlock)
    /\ getRelevantTags' (Block.refs fullBlock) = Ok own
    /\ tags n = chooseTags own
                   match Block.tagsFromParentCardGroup blockEntity with
                   | Some tags => tags
                   | None => []
                   end.
Proof.
  unfold getNoteOfBlock.
  destruct (match Block.page blockEntity with
            | Some id => getPage (PageEntityID id)
            | None => Ok None
            end) as [page | e]; [| discriminate].
  cbn [bind].
  destruct (getBlock _ true) as [[fullBlock |] | e] eqn:Efull;
    try discriminate.
  cbn [bind].
  destruct (getRelevantTags' (Block.refs fullBlock)) as [own | e] eqn:Eown;
    [| discriminate].
  cbn [bind]. intros H. injection H as <-.
  exists fullBlock, own. now repeat split.
Qed.

(** C10. The note of a child of a card-group block is built with the
    block's own relevant tags when there is one, and with the relevant tags
    of the parent block when there is none: the tag list is one of the two
    lists, never a mix of them. *)
Theorem getNoteOfBlock_card_group_tags (blockEntity tagged : Block.t)
  (n : MultilineCardNote) :
  addTagsFromParentCardGroup' blockEntity = Ok tagged ->
  getNoteOfBlock' tagged = Ok (Some n) ->
  exists fullBlock own fromParent,
    getBlock (BlockUUID (getUUIDFromBlock tagged)) true = Ok (Some fullBlock)
    /\ getRelevantTags' (Block.refs fullBlock) = Ok own
    /\ getTagsOfParent' blockEntity = Ok fromParent
    /\ (own <> [] -> tags n = own)
    /\ (own = [] -> tags n = fromParent).
Proof.
  unfold addTagsFromParentCardGroup.
  destruct (getTagsOfParent' blockEntity) as [fromParent | e]; [| discriminate].
  cbn [bind]. intros H. injection H as <-. intros Hnote.
  destruct (getNoteOfBlock_tags _ n Hnote) as [fullBlock [own [Hfull [Hown Htags]]]].
  exists fullBlock, own, fromParent.
  split; [assumption |]. split; [assumption |]. split; [reflexivity |].
  cbn in Htags. split.
  - intros H. rewrite Htags. now apply chooseTags_own.
  - intros ->. exact Htags.
Qed.

(** X8. The tags of the note built of a child of a card-group block are
    candidates of [getRelevantTags], whether they are the block's own or
    those of its parent. *)
Lemma getNoteOfBlock_tags_relevant (blockEntity tagged : Block.t)
  (n : MultilineCardNote) :
  addTagsFromParentCardGroup' blockEntity = Ok tagged ->
  getNoteOfBlock' tagged = Ok (Some n) ->
  incl (tags n) relevantTagNames.
Proof.
  unfold addTagsFromParentCardGroup.
  destruct (getTagsOfParent' blockEntity) as [fromParent | e] eqn:Ep;
    [| discriminate].
  cbn [bind]. intros H. injection H as <-. intros Hnote.
  destruct (getNoteOfBlock_tags _ n Hnote) as [fullBlock [own [_ [Hown Htags]]]].
  cbn in Htags. rewrite Htags. unfold chooseTags.
  destruct (0 <? length own)%nat.
  - exact (getRelevantTags_incl getPage _ _ Hown).
  - unfold getTagsOfParent in Ep.
    destruct (match Block.parent blockEntity with
              | Some parent =>
                  if negb (parent =? 0)
                  then getBlock (BlockEntityID parent) false
                  else Ok None
              | None => Ok None
              end) as [[parentBlock |] | e]; cbn [bind] in Ep.
    + exact (getRelevantTags_incl getPage _ _ Ep).
    + injection Ep as <-. apply incl_nil_l.
    + discriminate.
Qed.

End Extraction.

(** ** The filter of notes made twice *)

Lemma findByUuid_spec (otherNotes : list Note.t) (uuid : string) :
  findByUuid otherNotes uuid = true <->
  exists other, In other otherNotes /\ Note.uuid other = uuid.
Proof.
  unfold findByUuid. rewrite existsb_exists. split.
  - intros [other [Hin Heq]]. apply String.eqb_eq in Heq. now exists other.
  - intros [other [Hin <-]]. exists other. split; [assumption |].
    apply String.eqb_refl.
Qed.

(** C7, as the code has it.  The filter keeps a note if and only if its
    [direction] property is truthy, or its tags hold [forward],
    [bidirectional] or [reversed], or it has a child, or no note of another
    type has its uuid. *)
Theorem filterNotes_keeps (otherNotes : list Note.t)
  (notes : list MultilineCardNote) (n : MultilineCardNote) :
  In n (filterNotes otherNotes notes) <->
  In n notes
  /\ (Js.truthy (Js.get (properties n) "direction") = true
      \/ In "forward" (tags n)
      \/ In "bidirectional" (tags n)
      \/ In "reversed" (tags n)
      \/ children n <> []
      \/ ~ (exists other,
              In other otherNotes /\ Note.uuid other = Note.uuid (note n))).
Proof.
  unfold filterNotes. rewrite filter_In. unfold isRetained.
  rewrite !orb_true_iff, !includes_In, negb_true_iff.
  assert (Hc : (0 <? length (children n))%nat = true <-> children n <> []).
  { destruct (children n); cbn; split; congruence. }
  assert (Hf : findByUuid otherNotes (Note.uuid (note n)) = false <->
               ~ (exists other,
                    In other otherNotes /\ Note.uuid other = Note.uuid (note n))).
  { rewrite <- findByUuid_spec.
    destruct (findByUuid otherNotes (Note.uuid (note n))); split; congruence. }
  rewrite Hc, Hf. tauto.
Qed.

(** ** The extraction as a whole *)

Lemma mapM_Forall2 {A B : Type} (f : A -> result B) (l : list A) :
  forall ys, mapM f l = Ok ys -> Forall2 (fun x y => f x = Ok y) l ys.
Proof.
  induction l as [| x l IH]; intros ys H; cbn in H.
  - injection H as <-. constructor.
  - destruct (f x) as [y | e] eqn:Ex; [| discriminate]. cbn [bind] in H.
    destruct (mapM f l) as [ys' | e]; [| discriminate]. cbn [bind] in H.
    injection H as <-. constructor; [assumption | now apply IH].
Qed.

(** The notes the extraction returns: the children of card-group blocks get
    the tags of their parents, every block found gives a note or none, and
    the notes left by [removeUnwantedNotes] go through the filter. *)
Lemma getNotesFromLogseqBlocks_stages
  (getPage : PageIdentity -> result (option PageEntity.t))
  (getBlock : BlockIdentity -> bool -> result (option Block.t))
  (datascriptQueryBlocks : Query -> result (list Block.t))
  (getUUIDFromBlock : Block.t -> string)
  (removeUnwantedNotes :
     list (option MultilineCardNote) -> result (list MultilineCardNote))
  (otherNotes : list Note.t) (notes : list MultilineCardNote) :
  getNotesFromLogseqBlocks getPage getBlock datascriptQueryBlocks
    getUUIDFromBlock removeUnwantedNotes otherNotes = Ok notes ->
  exists cards flashcards members tagged built wanted,
    datascriptQueryBlocks RefsCard = Ok cards
    /\ datascriptQueryBlocks RefsFlashcard = Ok flashcards
    /\ datascriptQueryBlocks ChildrenOfCardGroup = Ok members
    /\ Forall2 (fun b b' => addTagsFromParentCardGroup getPage getBlock b = Ok b')
               members tagged
    /\ Forall2 (fun b n => getNoteOfBlock getPage getBlock getUUIDFromBlock b
                           = Ok n)
               (cards ++ flashcards ++ tagged)%list built
    /\ removeUnwantedNotes built = Ok wanted
    /\ notes = filterNotes otherNotes wanted.
Proof.
  unfold getNotesFromLogseqBlocks.
  destruct (datascriptQueryBlocks RefsCard) as [cards | e]; [| discriminate].
  destruct (datascriptQueryBlocks RefsFlashcard) as [flashcards | e];
    [| discriminate].
  destruct (datascriptQueryBlocks ChildrenOfCardGroup) as [members | e];
    [| discriminate].
  cbn [bind].
  destruct (mapM _ members) as [tagged | e] eqn:Etagged; [| discriminate].
  cbn [bind].
  destruct (mapM _ (cards ++ flashcards ++ tagged)%list) as [built | e]
    eqn:Ebuilt; [| discriminate].
  cbn [bind].
  destruct (removeUnwantedNotes built) as [wanted | e] eqn:Ewanted;
    [| discriminate].
  cbn [bind]. intros H. injection H as <-.
  exists cards, flashcards, members, tagged, built, wanted.
  repeat split; try reflexivity; try assumption.
  - now apply mapM_Forall2.
  - now apply mapM_Forall2.
Qed.

(** ** The statements on concrete inputs *)

Section OnSamples.

Local Notation convert := Sample.convertToHTMLFile.
Local Notation escape := Sample.escapeClozesAndMacroDelimiters.
Local Notation toNum := Sample.StringToNumber.
Local Notation json := Sample.JSON_stringify.

(** A card tagged [reversed] whose [direction] property is no direction is
    reversed. *)
Lemma getCardDirection_precedence_witness :
  getCardDirection
    (Sample.card [("direction", VStr "sideways")] ["reversed"] Sample.outline)
  = VStr "<-".
Proof.
  apply (proj1 (proj2 (proj2 (getCardDirection_precedence
    (Sample.card [("direction", VStr "sideways")] ["reversed"] Sample.outline))))).
  - intros [H | [H | H]]; discriminate H.
  - intros [[[H | []] _] | [H | []]]; discriminate H.
  - left. reflexivity.
Defined.

(** The property [source] of [Sample.countZero] resolves to its text. *)
Lemma getFieldContent_property_witness :
  getFieldContent convert escape toNum Sample.countZero (VStr "source")
  = Ok "Chapter 2".
Proof.
  apply (proj1 (proj2 (getFieldContent_property convert escape toNum
                         Sample.countZero "source" ltac:(discriminate)
                         ltac:(discriminate)))
           (VStr "Chapter 2")).
  reflexivity.
Defined.

(** C4 as stated fails.  The property [count] is present with the value 0,
    whose string form is [0], and resolves to the empty string; the name
    [constructor] is no property of the note and resolves to a text that is
    not empty. *)
Lemma getFieldContent_zero_property :
  (Js.own (properties Sample.countZero) "count" = Some (VNum 0)
   /\ Js.toString (VNum 0) = "0"
   /\ getFieldContent convert escape toNum Sample.countZero (VStr "count")
      = Ok EmptyString)
  /\ (Js.own (properties Sample.countZero) "constructor" = None
      /\ getFieldContent convert escape toNum Sample.countZero
           (VStr "constructor")
         = Ok "function Object() { [native code] }").
Proof. repeat split. Qed.

(** A card without properties gets the fields [Front] and [Back]. *)
Lemma getClozedContentHTML_default_fields_witness :
  exists file card model,
    getClozedContentHTML convert escape toNum json
      (Sample.card [] [] [Sample.leaf "a" "Answer"]) = Ok file
    /\ getCard convert escape toNum (Sample.card [] [] [Sample.leaf "a" "Answer"])
       = Ok card
    /\ ankiModel card = VStr model
    /\ model = "Basic"
    /\ map fst (fieldContent card) = ["Front"; "Back"].
Proof.
  destruct (getClozedContentHTML_default_fields convert escape toNum json
              (Sample.card [] [] [Sample.leaf "a" "Answer"])
              (HTMLFile.make
                 (cardHTML json
                    (mkCard (VStr "Basic")
                       [("Front", "<p>Question?</p>");
                        ("Back",
                         ulOpen ++ liOpen (Sample.leaf "a" "Answer")
                         ++ "<p>Answer</p></li></ul>")]
                       "<p>Question?</p>")) [] []))
    as [card [model [Hcard [_ [Hmodel [Hanki Hfields]]]]]].
  - intros key value [].
  - reflexivity.
  - eexists. exists card, model. split; [reflexivity |].
    split; [exact Hcard |]. split; [exact Hanki |].
    injection Hmodel as <-. split; [reflexivity |].
    destruct Hfields as [[Hcloze _] | [_ [back [_ ->]]]].
    + discriminate Hcloze.
    + reflexivity.
Defined.

(** The main content of a reversed card is its children. *)
Lemma getClozedContentHTML_main_content_witness :
  exists file card,
    getClozedContentHTML convert escape toNum json
      (Sample.card [] ["reversed"] [Sample.leaf "a" "Answer"]) = Ok file
    /\ HTMLFile.html file = cardHTML json card
    /\ getFieldContent convert escape toNum
         (Sample.card [] ["reversed"] [Sample.leaf "a" "Answer"]) (VStr "children")
       = Ok (mainContent card).
Proof.
  destruct (getClozedContentHTML convert escape toNum json
              (Sample.card [] ["reversed"] [Sample.leaf "a" "Answer"]))
    as [file | e] eqn:E; [| discriminate E].
  destruct (getClozedContentHTML_main_content convert escape toNum json _ file E)
    as [card [_ [Hhtml [Hrev _]]]].
  exists file, card. split; [reflexivity |]. split; [exact Hhtml |].
  apply Hrev. left. reflexivity.
Defined.

(** A note tagged [forward] is kept though another note has its uuid. *)
Lemma filterNotes_keeps_witness :
  In (Sample.card [] ["forward"] [])
     (filterNotes [Sample.otherNote] [Sample.card [] ["forward"] []]).
Proof.
  apply (proj2 (filterNotes_keeps [Sample.otherNote]
                  [Sample.card [] ["forward"] []]
                  (Sample.card [] ["forward"] []))).
  split.
  - left. reflexivity.
  - right. left. left. reflexivity.
Defined.

(** C7 as stated fails: a note that has a [direction] property, with the
    value [false] or the empty string, and neither tags nor children is
    dropped when another note has its uuid. *)
Lemma filterNotes_falsy_direction :
  (Js.own (properties (Sample.bare (VBool false))) "direction"
   = Some (VBool false)
   /\ filterNotes [Sample.otherNote] [Sample.bare (VBool false)] = [])
  /\ (Js.own (properties (Sample.bare (VStr EmptyString))) "direction"
      = Some (VStr EmptyString)
      /\ filterNotes [Sample.otherNote] [Sample.bare (VStr EmptyString)] = []).
Proof. repeat split. Qed.

(** The tag ids 2 and 52 resolve to [reversed] and [depth-2], in the order
    of the candidates. *)
Lemma matchTagNamesWithTagIds_candidates_witness :
  matchTagNamesWithTagIds Sample.getPage [52; 2; 99]
    ["forward"; "reversed"; "incremental"; "depth-2"]
  = Ok ["reversed"; "depth-2"].
Proof.
  apply (proj1 (matchTagNamesWithTagIds_candidates Sample.getPage [52; 2; 99]
                  ["forward"; "reversed"; "incremental"; "depth-2"])).
  intros name [<- | [<- | [<- | [<- | []]]]]; eexists; reflexivity.
Defined.

(** C8 as stated fails.  The lookup of [reversed] is rejected and so is the
    whole resolution, though [forward] was found with one of the tag ids; and
    a candidate whose page has the id 0 is left out though 0 is a tag id. *)
Lemma matchTagNamesWithTagIds_rejected :
  (Sample.getPageRejecting (PageName "forward") = Ok (Some (PageEntity.make 1))
   /\ Sample.getPageRejecting (PageName "reversed") = Err HostFailure
   /\ matchTagNamesWithTagIds Sample.getPageRejecting [1; 2]
        ["forward"; "reversed"; "bidirectional"]
      = Err HostFailure)
  /\ (Sample.getPageZero (PageName "forward") = Ok (Some (PageEntity.make 0))
      /\ matchTagNamesWithTagIds Sample.getPageZero [0] ["forward"] = Ok []).
Proof. repeat split. Qed.

(** C9 fails on the code: [depth-0] is a candidate of [getRelevantTags],
    though no page [depth-0] is created with the others, and a block that
    references such a page gets the tag. *)
Lemma getRelevantTags_depth_0 :
  In "depth-0" relevantTagNames
  /\ ~ In "depth-0" createdPages
  /\ getRelevantTags Sample.getPage [50] = Ok ["depth-0"].
Proof.
  split; [| split].
  - cbn. tauto.
  - cbn. intros H.
    repeat (destruct H as [H | H]; [discriminate H |]). exact H.
  - reflexivity.
Qed.

(** The child of the card-group block has no tag of its own and takes
    [reversed] from its parent. *)
Lemma getNoteOfBlock_card_group_tags_witness :
  exists tagged n,
    addTagsFromParentCardGroup Sample.getPage Sample.getBlock Sample.childBlock
    = Ok tagged
    /\ getNoteOfBlock Sample.getPage Sample.getBlock Sample.getUUIDFromBlock tagged
       = Ok (Some n)
    /\ tags n = ["reversed"].
Proof.
  destruct (addTagsFromParentCardGroup Sample.getPage Sample.getBlock
              Sample.childBlock) as [tagged | e] eqn:Etag; [| discriminate Etag].
  destruct (getNoteOfBlock Sample.getPage Sample.getBlock
              Sample.getUUIDFromBlock tagged) as [[n |] | e] eqn:Enote.
  - exists tagged, n. split; [reflexivity |]. split; [exact Enote |].
    destruct (getNoteOfBlock_card_group_tags Sample.getPage Sample.getBlock
                Sample.getUUIDFromBlock Sample.childBlock tagged n Etag Enote)
      as [fullBlock [own [fromParent [Hfull [Hown [Hparent [_ Hempty]]]]]]].
    injection Etag as <-. injection Hfull as <-.
    injection Hown as <-. injection Hparent as <-.
    apply Hempty. reflexivity.
  - injection Etag as <-. discriminate Enote.
  - injection Etag as <-. discriminate Enote.
Defined.

End OnSamples.

(** * Further properties *)

(** ** The direction is one of three *)

(** X1. The direction of a card is always one of [->], [<-] and [<->],
    whatever the type and value of its [direction] property. *)
Theorem getCardDirection_range (n : MultilineCardNote) :
  getCardDirection n = VStr "->"
  \/ getCardDirection n = VStr "<-"
  \/ getCardDirection n = VStr "<->".
Proof.
  unfold getCardDirection.
  destruct (Js.strictEqStr (Js.get (properties n) "direction") "->") eqn:E1.
  { apply strictEqStr_true in E1. rewrite E1. cbn. now left. }
  destruct (Js.strictEqStr (Js.get (properties n) "direction") "<-") eqn:E2.
  { apply strictEqStr_true in E2. rewrite E2. cbn. right. now left. }
  destruct (Js.strictEqStr (Js.get (properties n) "direction") "<->") eqn:E3.
  { apply strictEqStr_true in E3. rewrite E3. cbn. right. now right. }
  cbn [negb andb].
  destruct (includes (tags n) "reversed" && includes (tags n) "forward"
            || includes (tags n) "bidirectional"); [right; now right |].
  destruct (includes (tags n) "reversed"); [right; now left | now left].
Qed.

(** ** The list of children, item by item *)

Lemma append_assoc (a b c : string) : (a ++ b) ++ c = a ++ (b ++ c).
Proof. induction a as [| x a IH]; simpl; [reflexivity | now rewrite IH]. Qed.

Section Items.

Variable convertToHTMLFile : string -> string -> result HTMLFile.t.
Variable escapeClozesAndMacroDelimiters : string -> string.
Variable StringToNumber : string -> option Z.

Local Notation appendChild' :=
  (appendChild convertToHTMLFile escapeClozesAndMacroDelimiters StringToNumber).
Local Notation getChildrenListHTML' :=
  (getChildrenListHTML convertToHTMLFile escapeClozesAndMacroDelimiters
                       StringToNumber).
Local Notation geNumber' := (geNumber StringToNumber).

(** The item of a child does not depend on the HTML before it. *)
Lemma appendChild_item (maxDepth : Js.value) (level : Z) (acc : string)
  (child : Block.t) :
  appendChild' maxDepth level acc child
  = (item <- appendChild' maxDepth level EmptyString child ;; Ok (acc ++ item)).
Proof.
  rewrite !appendChild_eq.
  destruct (convertToHTMLFile _ _) as [file | e]; [| reflexivity].
  cbn [bind].
  destruct (if (0 <? length (Block.children child))%nat then _ else _)
    as [html | e]; [| reflexivity].
  cbn [bind append]. now rewrite !append_assoc.
Qed.

Lemma foldM_appendChild_items (maxDepth : Js.value) (level : Z)
  (childrenList : list Block.t) :
  forall acc,
    foldM (appendChild' maxDepth level) childrenList acc
    = (items <- mapM (appendChild' maxDepth level EmptyString) childrenList ;;
       Ok (acc ++ String.concat EmptyString items)).
Proof.
  induction childrenList as [| child rest IH]; intros acc.
  - cbn. now rewrite append_empty_r.
  - cbn [foldM mapM]. rewrite appendChild_item.
    destruct (appendChild' maxDepth level EmptyString child) as [item | e];
      [| reflexivity].
    cbn [bind]. rewrite IH.
    destruct (mapM _ rest) as [items | e]; [| reflexivity].
    cbn [bind]. f_equal. rewrite append_assoc. f_equal.
    destruct items as [| i items]; cbn.
    + now rewrite append_empty_r.
    + reflexivity.
Qed.

Lemma getChildrenListHTML_below_cap (maxDepth : Js.value) (level : Z)
  (childrenList : list Block.t) :
  geNumber' level maxDepth = false ->
  getChildrenListHTML' maxDepth childrenList level
  = (items <- mapM (appendChild' maxDepth level EmptyString) childrenList ;;
     Ok (ulOpen ++ String.concat EmptyString items ++ "</ul>")).
Proof.
  intros Hcap. unfold getChildrenListHTML. rewrite Hcap.
  rewrite foldM_appendChild_items.
  destruct (mapM _ childrenList) as [items | e]; [| reflexivity].
  cbn [bind]. now rewrite append_assoc.
Qed.

(** X2. Below the cap the HTML of a list of children is one [ul] element
    that holds the items of the children one after the other, in the order
    of the list; the item of a child is the same wherever the child stands.
    At the cap it is the empty string. *)
Theorem getChildrenListHTML_items (maxDepth : Js.value) (level : Z)
  (childrenList : list Block.t) :
  getChildrenListHTML' maxDepth childrenList level
  = if geNumber' level maxDepth then Ok EmptyString
    else
      items <- mapM (appendChild' maxDepth level EmptyString) childrenList ;;
      Ok (ulOpen ++ String.concat EmptyString items ++ "</ul>").
Proof.
  destruct (geNumber' level maxDepth) eqn:Hcap.
  - unfold getChildrenListHTML. now rewrite Hcap.
  - now apply getChildrenListHTML_below_cap.
Qed.

Lemma mapM_failure {A B : Type} (f : A -> result B) (l : list A) (x : A)
  (e : exn) :
  In x l -> f x = Err e -> exists e', mapM f l = Err e'.
Proof.
  induction l as [| y l IH]; intros Hin Hx; [contradiction |].
  cbn [mapM]. destruct Hin as [-> | Hin].
  - rewrite Hx. now exists e.
  - destruct (f y) as [b | e1]; [| now exists e1]. cbn [bind].
    destruct (IH Hin Hx) as [e' ->]. now exists e'.
Qed.

(** X4. Below the cap, a child of the list on whose text the converter
    fails makes the rendering of the whole list fail: no item is left out
    and no partial list is returned. *)
Theorem getChildrenListHTML_converter_failure (maxDepth : Js.value)
  (level : Z) (childrenList : list Block.t) (child : Block.t) (e : exn) :
  geNumber' level maxDepth = false ->
  In child childrenList ->
  convertToHTMLFile (sanitizedChildContent escapeClozesAndMacroDelimiters child)
                    (Block.format child) = Err e ->
  exists e', getChildrenListHTML' maxDepth childrenList level = Err e'.
Proof.
  intros Hcap Hin Hconv. rewrite (getChildrenListHTML_below_cap _ _ _ Hcap).
  assert (Hitem : appendChild' maxDepth level EmptyString child = Err e).
  { rewrite appendChild_eq, Hconv. reflexivity. }
  destruct (mapM_failure _ childrenList child e Hin Hitem) as [e' ->].
  now exists e'.
Qed.

(** Every block of the list has at most [k] levels. *)
Lemma levels_le (l : list Block.t) (k : nat) :
  (Outline.levels l <= k)%nat <->
  Forall (fun b => (Outline.height b <= k)%nat) l.
Proof.
  unfold Outline.levels. rewrite list_max_le, Forall_map. reflexivity.
Qed.

Lemma height_children (b : Block.t) :
  Outline.height b = S (Outline.levels (Block.children b)).
Proof. destruct b; reflexivity. Qed.

Lemma levels_pos (l : list Block.t) :
  (0 <? length l)%nat = true -> (1 <= Outline.levels l)%nat.
Proof.
  destruct l as [| b l]; [discriminate |]. intros _.
  unfold Outline.levels. cbn [map list_max fold_right].
  rewrite height_children. lia.
Qed.

Lemma foldM_high_caps (N M level : Z) (h : nat) (l : list Block.t) :
  level + Z.of_nat h <= N ->
  level + Z.of_nat h <= M ->
  Forall (fun c => forall level acc,
            level + Z.of_nat (Outline.height c) <= N ->
            level + Z.of_nat (Outline.height c) <= M ->
            appendChild' (VNum N) level acc c = appendChild' (VNum M) level acc c)
         l ->
  Forall (fun c => (Outline.height c <= h)%nat) l ->
  forall acc,
    foldM (appendChild' (VNum N) level) l acc
    = foldM (appendChild' (VNum M) level) l acc.
Proof.
  intros HN HM Hsame Hbelow.
  induction l as [| c cs IHcs]; intros acc; [reflexivity |].
  cbn [foldM]. inversion Hsame as [| ? ? Hc Hcs]; subst.
  inversion Hbelow as [| ? ? Hh Hhs]; subst.
  rewrite (Hc level acc) by lia.
  destruct (appendChild' (VNum M) level acc c); [| reflexivity].
  cbn [bind]. now apply IHcs.
Qed.

(** Two caps that both lie below the levels of the child give the same
    item. *)
Lemma appendChild_high_caps (N M : Z) (child : Block.t) :
  forall level acc,
    level + Z.of_nat (Outline.height child) <= N ->
    level + Z.of_nat (Outline.height child) <= M ->
    appendChild' (VNum N) level acc child = appendChild' (VNum M) level acc child.
Proof.
  induction child as [child IH] using block_induction.
  intros level acc HN HM. rewrite !appendChild_eq.
  destruct (convertToHTMLFile _ _) as [file | e]; [| reflexivity].
  cbn [bind]. rewrite height_children in HN, HM.
  destruct (0 <? length (Block.children child))%nat eqn:E; [| reflexivity].
  pose proof (levels_pos _ E) as Hpos.
  unfold getChildrenListHTML. rewrite !geNumber_VNum.
  replace (N <=? level + 1) with false by (symmetry; apply Z.leb_gt; lia).
  replace (M <=? level + 1) with false by (symmetry; apply Z.leb_gt; lia).
  rewrite (foldM_high_caps N M (level + 1)
             (Outline.levels (Block.children child)) (Block.children child));
    [reflexivity | lia | lia | exact IH |].
  now apply levels_le.
Qed.

(** X5. A cap that is at least the number of levels of the outline cuts
    nothing: every such cap gives the same HTML, so the default 9999 stands
    for no cap at all on every outline of fewer than 9999 levels. *)
Theorem getChildrenListHTML_high_caps (N M : Z) (childrenList : list Block.t) :
  0 < N -> 0 < M ->
  Z.of_nat (Outline.levels childrenList) <= N ->
  Z.of_nat (Outline.levels childrenList) <= M ->
  getChildrenListHTML' (VNum N) childrenList 0
  = getChildrenListHTML' (VNum M) childrenList 0.
Proof.
  intros HN0 HM0 HN HM. unfold getChildrenListHTML. rewrite !geNumber_VNum.
  replace (N <=? 0) with false by (symmetry; apply Z.leb_gt; lia).
  replace (M <=? 0) with false by (symmetry; apply Z.leb_gt; lia).
  rewrite (foldM_high_caps N M 0 (Outline.levels childrenList) childrenList);
    [reflexivity | lia | lia | | now apply levels_le].
  apply Forall_forall. intros c _ level acc. apply appendChild_high_caps.
Qed.

End Items.

(** ** Tag ids as a set, tags without repeats *)

Section MoreTags.

Variable getPage : PageIdentity -> result (option PageEntity.t).

Lemma setHas_same (tagIds tagIds' : list Z) :
  (forall id, In id tagIds <-> In id tagIds') ->
  forall id, setHas tagIds id = setHas tagIds' id.
Proof.
  intros H id. destruct (setHas tagIds' id) eqn:E.
  - apply setHas_In. apply H. now apply setHas_In.
  - destruct (setHas tagIds id) eqn:E'; [| reflexivity].
    apply setHas_In, H, setHas_In in E'. congruence.
Qed.

Lemma matchStep_same (tagIds tagIds' : list Z) :
  (forall id, In id tagIds <-> In id tagIds') ->
  forall matched name,
    matchStep getPage tagIds matched name = matchStep getPage tagIds' matched name.
Proof.
  intros H matched name. unfold matchStep.
  destruct (getPage (PageName name)) as [[p |] | e]; try reflexivity.
  cbn [bind pageMatches]. now rewrite (setHas_same tagIds tagIds' H).
Qed.

(** X6. The tag ids count as a set: two lists with the same ids, in any
    order and with any repeats, resolve to the same tags (or fail alike). *)
Theorem matchTagNamesWithTagIds_set (tagIds tagIds' : list Z)
  (tagNames : list string) :
  (forall id, In id tagIds <-> In id tagIds') ->
  matchTagNamesWithTagIds getPage tagIds tagNames
  = matchTagNamesWithTagIds getPage tagIds' tagNames.
Proof.
  intros H. unfold matchTagNamesWithTagIds. generalize (@nil string).
  induction tagNames as [| name rest IH]; intros matched; [reflexivity |].
  cbn [foldM]. rewrite (matchStep_same tagIds tagIds' H).
  destruct (matchStep getPage tagIds' matched name); [| reflexivity].
  cbn [bind]. apply IH.
Qed.

(** A resolution that returns has kept the candidates that match, all of
    them and in their order. *)
Lemma foldM_matchStep_filter (tagIds : list Z) (tagNames : list string) :
  forall matched tags,
    foldM (matchStep getPage tagIds) tagNames matched = Ok tags ->
    tags = (matched ++ filter (lookupMatches getPage tagIds) tagNames)%list.
Proof.
  induction tagNames as [| name rest IH]; intros matched tags H.
  - cbn in H. injection H as <-. cbn. now rewrite app_nil_r.
  - cbn [foldM filter] in *. unfold lookupMatches at 1.
    destruct (getPage (PageName name)) as [tagPage | e] eqn:Hp.
    + rewrite (matchStep_ok getPage tagIds matched name tagPage Hp) in H.
      cbn [bind] in H. apply IH in H. rewrite H.
      destruct (pageMatches tagIds tagPage); [| reflexivity].
      now rewrite <- app_assoc.
    + rewrite (matchStep_err getPage tagIds matched name e Hp) in H.
      discriminate.
Qed.

Lemma relevantTagNames_NoDup : NoDup relevantTagNames.
Proof.
  unfold relevantTagNames. cbn.
  repeat (constructor;
          [cbn; intros H;
           repeat (destruct H as [H | H]; [discriminate H |]); exact H |]).
  constructor.
Qed.

(** X7. The relevant tags of a block hold no tag twice, also when the block
    references the page of a tag more than once. *)
Theorem getRelevantTags_NoDup (tagIds : list Z) (tags : list string) :
  getRelevantTags getPage tagIds = Ok tags -> NoDup tags.
Proof.
  unfold getRelevantTags, matchTagNamesWithTagIds.
  destruct (foldM _ _ _) as [found | e] eqn:E; [| discriminate].
  cbn [bind]. rewrite map_id. intros H. injection H as <-.
  apply foldM_matchStep_filter in E. rewrite E. cbn [app].
  apply NoDup_filter. exact relevantTagNames_NoDup.
Qed.

End MoreTags.

(** ** The cap of a note with resolved tags *)

(** The result of the loop is the value before it or the number of one of
    the depth tags. *)
Lemma fold_depthStep_cases (l : list string) :
  forall init,
    fold_left depthStep l init = init
    \/ exists tag digits,
         In tag l /\ depthTagDigits tag = Some digits
         /\ fold_left depthStep l init = VNum (Str.parseInt digits).
Proof.
  induction l as [| t l IH]; intros init; [now left |].
  cbn [fold_left]. destruct (IH (depthStep init t)) as [H | [tag [d [Hin [Hd H]]]]].
  - rewrite H. unfold depthStep. destruct (depthTagDigits t) as [d |] eqn:E.
    + right. exists t, d. repeat split; [now left | assumption].
    + now left.
  - right. exists tag, d. repeat split; [now right | assumption | assumption].
Qed.

Lemma relevant_depth_digit (tag digits : string) :
  In tag relevantTagNames -> depthTagDigits tag = Some digits ->
  0 <= Str.parseInt digits <= 9.
Proof.
  unfold relevantTagNames. cbn. intros H Hd.
  repeat (destruct H as [H | H];
          [subst tag; vm_compute in Hd; first [discriminate Hd |
             injection Hd as <-; vm_compute; split; discriminate] |]).
  contradiction.
Qed.

(** X9. On a note whose tags are among the candidates of [getRelevantTags],
    as the tags of every extracted note are, the cap is either the default
    (the truthy [depth] property or 9999) or a number from 0 to 9. *)
Theorem getChildrenMaxDepth_resolved_tags (n : MultilineCardNote) :
  incl (tags n) relevantTagNames ->
  getChildrenMaxDepth n = Js.or (Js.get (properties n) "depth") (VNum 9999)
  \/ exists k, 0 <= k <= 9 /\ getChildrenMaxDepth n = VNum k.
Proof.
  intros Hincl. unfold getChildrenMaxDepth.
  destruct (fold_depthStep_cases (tags n)
              (Js.or (Js.get (properties n) "depth") (VNum 9999)))
    as [H | [tag [digits [Hin [Hd H]]]]].
  - now left.
  - right. exists (Str.parseInt digits). split; [| assumption].
    apply (relevant_depth_digit tag digits); [now apply Hincl | assumption].
Qed.

(** ** Block dependencies *)

Lemma pushChildUUID_eq (result : list string) (child : Block.t) :
  pushChildUUID result child
  = (result ++ Block.uuid child :: getChildrenUUID (Block.children child))%list.
Proof.
  destruct child as [u i c f p cs r pa pg tg]. cbn -[Nat.ltb fold_left].
  unfold getChildrenUUID. destruct cs as [| c0 cs].
  - cbn. reflexivity.
  - cbn -[fold_left]. now rewrite <- app_assoc.
Qed.

(** The uuids come in the order of the outline read from top to bottom:
    a block, then what is below it, then the next block. *)
Lemma getChildrenUUID_flat_map (l : list Block.t) :
  getChildrenUUID l
  = flat_map (fun c => Block.uuid c :: getChildrenUUID (Block.children c)) l.
Proof.
  unfold getChildrenUUID at 1. rewrite <- (app_nil_l (flat_map _ l)).
  generalize (@nil string).
  induction l as [| c l IH]; intros acc; cbn [fold_left flat_map].
  - now rewrite app_nil_r.
  - rewrite IH, pushChildUUID_eq, <- app_assoc. reflexivity.
Qed.

Lemma getChildrenUUID_within (b : Block.t) :
  forall u,
    In u (getChildrenUUID (Block.children b)) ->
    exists d, Outline.within (Block.children b) d /\ Block.uuid d = u.
Proof.
  induction b as [b IH] using block_induction. intros u.
  rewrite getChildrenUUID_flat_map, in_flat_map.
  intros [c [Hc [Hu | Hu]]].
  - exists c. split; [now apply Outline.within_here | assumption].
  - rewrite Forall_forall in IH. destruct (IH c Hc u Hu) as [d [Hd Heq]].
    exists d. split; [| assumption].
    now apply (Outline.within_below _ c).
Qed.

Lemma within_getChildrenUUID (l : list Block.t) (b : Block.t) :
  Outline.within l b -> In (Block.uuid b) (getChildrenUUID l).
Proof.
  induction 1 as [l b Hin | l c b Hin Hbelow IH];
    rewrite getChildrenUUID_flat_map, in_flat_map.
  - exists b. split; [assumption | now left].
  - exists c. split; [assumption | now right].
Qed.

Lemma getChildrenUUID_spec (l : list Block.t) (u : string) :
  In u (getChildrenUUID l) <->
  exists b, Outline.within l b /\ Block.uuid b = u.
Proof.
  split.
  - exact (getChildrenUUID_within
             (Block.make EmptyString 0 EmptyString EmptyString [] l [] None None
                         None) u).
  - intros [b [Hb <-]]. now apply within_getChildrenUUID.
Qed.

(** X10. The dependencies of a note are blocks only: the block of the note
    and every block below it, at any depth and whatever the depth cap of the
    card is; nothing else is a dependency. *)
Theorem getBlockDependencies_spec (n : MultilineCardNote)
  (d : DependencyEntity.t) :
  In d (getBlockDependencies n) <->
  DependencyEntity.type d = "Block"
  /\ (DependencyEntity.value d = Note.uuid (note n)
      \/ exists b, Outline.within (children n) b
                   /\ Block.uuid b = DependencyEntity.value d).
Proof.
  unfold getBlockDependencies. rewrite in_map_iff. split.
  - intros [u [<- [<- | Hu]]]; cbn.
    + split; [reflexivity | now left].
    + split; [reflexivity | right]. now apply getChildrenUUID_spec.
  - intros [Ht Hv]. destruct d as [ty v]. cbn in Ht, Hv. subst ty.
    exists v. split; [reflexivity |].
    destruct Hv as [-> | Hv]; [now left | right].
    now apply getChildrenUUID_spec.
Qed.

Lemma getChildrenUUID_length (b : Block.t) :
  length (getChildrenUUID (Block.children b)) = Outline.count (Block.children b).
Proof.
  induction b as [b IH] using block_induction.
  rewrite getChildrenUUID_flat_map. unfold Outline.count.
  induction (Block.children b) as [| c cs IHcs]; [reflexivity |].
  inversion IH as [| ? ? Hc Hcs]; subst.
  cbn [flat_map map list_sum fold_right]. rewrite length_app. cbn [length].
  rewrite Hc, (IHcs Hcs).
  destruct c; reflexivity.
Qed.

(** X11. A note has one dependency for its own block and one for each block
    below it: a block that stands twice in the outline is counted twice, the
    first dependency is the block of the note. *)
Theorem getBlockDependencies_length (n : MultilineCardNote) :
  length (getBlockDependencies n) = S (Outline.count (children n))
  /\ hd_error (getBlockDependencies n)
     = Some (DependencyEntity.make "Block" (Note.uuid (note n))).
Proof.
  unfold getBlockDependencies. cbn [map length hd_error].
  rewrite length_map. split; [| reflexivity]. f_equal.
  exact (getChildrenUUID_length
           (Block.make EmptyString 0 EmptyString EmptyString []
                       (children n) [] None None None)).
Qed.

(** ** The filter and the other notes *)

(** X12. When no other note type has produced a note, the filter drops
    nothing. *)
Theorem filterNotes_no_other_notes (notes : list MultilineCardNote) :
  filterNotes [] notes = notes.
Proof.
  unfold filterNotes. induction notes as [| n notes IH]; [reflexivity |].
  cbn [filter]. rewrite IH.
  replace (isRetained [] n) with true; [reflexivity |].
  unfold isRetained. cbn [findByUuid existsb negb]. now rewrite !orb_true_r.
Qed.

Lemma findByUuid_incl (otherNotes otherNotes' : list Note.t) (uuid : string) :
  incl otherNotes otherNotes' ->
  findByUuid otherNotes uuid = true -> findByUuid otherNotes' uuid = true.
Proof.
  intros Hincl H. apply findByUuid_spec in H. destruct H as [o [Hin Heq]].
  apply findByUuid_spec. exists o. split; [now apply Hincl | assumption].
Qed.

(** X13. More notes of other types can only drop more: a note kept against
    a list of other notes is kept against every part of that list. *)
Theorem filterNotes_fewer_other_notes (otherNotes otherNotes' : list Note.t)
  (notes : list MultilineCardNote) (n : MultilineCardNote) :
  incl otherNotes otherNotes' ->
  In n (filterNotes otherNotes' notes) -> In n (filterNotes otherNotes notes).
Proof.
  intros Hincl. unfold filterNotes. rewrite !filter_In.
  intros [Hin Hkept]. split; [assumption |].
  unfold isRetained in *.
  destruct (findByUuid otherNotes (Note.uuid (note n))) eqn:E.
  - rewrite (findByUuid_incl _ _ _ Hincl E) in Hkept. exact Hkept.
  - cbn [negb]. now rewrite !orb_true_r.
Qed.

(** ** A block that fails *)

(** X14. The notes are built under one [Promise.all]: when the note of one
    block that was found cannot be built, the extraction as a whole fails and
    returns no note of any other block. *)
Theorem getNotesFromLogseqBlocks_block_failure
  (getPage : PageIdentity -> result (option PageEntity.t))
  (getBlock : BlockIdentity -> bool -> result (option Block.t))
  (datascriptQueryBlocks : Query -> result (list Block.t))
  (getUUIDFromBlock : Block.t -> string)
  (removeUnwantedNotes :
     list (option MultilineCardNote) -> result (list MultilineCardNote))
  (otherNotes : list Note.t)
  (cards flashcards members tagged : list Block.t) (b : Block.t) (e : exn) :
  datascriptQueryBlocks RefsCard = Ok cards ->
  datascriptQueryBlocks RefsFlashcard = Ok flashcards ->
  datascriptQueryBlocks ChildrenOfCardGroup = Ok members ->
  mapM (addTagsFromParentCardGroup getPage getBlock) members = Ok tagged ->
  In b (cards ++ flashcards ++ tagged)%list ->
  getNoteOfBlock getPage getBlock getUUIDFromBlock b = Err e ->
  exists e',
    getNotesFromLogseqBlocks getPage getBlock datascriptQueryBlocks
      getUUIDFromBlock removeUnwantedNotes otherNotes = Err e'.
Proof.
  intros Hc Hf Hm Ht Hin Hb. unfold getNotesFromLogseqBlocks.
  rewrite Hc, Hf, Hm. cbn [bind]. rewrite Ht. cbn [bind].
  destruct (mapM_failure _ _ b e Hin Hb) as [e' ->]. now exists e'.
Qed.

(** ** Declared fields, defaults and the model name *)

Lemma prefix_drop (p s : string) :
  String.prefix p s = true -> s = p ++ Str.drop (String.length p) s.
Proof.
  revert s. induction p as [| c p IH]; intros s H; [reflexivity |].
  destruct s as [| c' s]; [discriminate |]. cbn in H.
  destruct (Ascii.ascii_dec c c') as [<- | Hne]; [| discriminate].
  cbn. f_equal. now apply IH.
Qed.

Lemma replace_prefix (p s : string) :
  String.prefix p s = true ->
  Str.replace s p EmptyString = Str.drop (String.length p) s.
Proof.
  intros H. destruct s as [| c s].
  - destruct p; [reflexivity | discriminate H].
  - cbn [Str.replace]. now rewrite H.
Qed.

(** The name of a declared field tells its property. *)
Lemma fieldName_inj (key key' : string) :
  Str.startsWith key "anki-field-" = true ->
  Str.startsWith key' "anki-field-" = true ->
  Str.replace key "anki-field-" EmptyString
  = Str.replace key' "anki-field-" EmptyString ->
  key = key'.
Proof.
  unfold Str.startsWith. intros H H' E.
  rewrite (replace_prefix _ _ H), (replace_prefix _ _ H') in E.
  rewrite (prefix_drop _ _ H), (prefix_drop _ _ H'). now rewrite E.
Qed.

Lemma own_update_same {A : Type} (o : Js.object A) (k : string) (v : A) :
  Js.own (Js.update o k v) k = Some v.
Proof.
  induction o as [| [k' v'] o IH]; cbn.
  - now rewrite String.eqb_refl.
  - destruct (String.eqb k' k) eqn:E; cbn; rewrite E; [reflexivity | exact IH].
Qed.

Lemma own_update_other {A : Type} (o : Js.object A) (k k' : string) (v : A) :
  k <> k' -> Js.own (Js.update o k v) k' = Js.own o k'.
Proof.
  intros Hne. induction o as [| [k0 v0] o IH]; cbn.
  - destruct (String.eqb k k') eqn:E; [apply String.eqb_eq in E; contradiction |].
    reflexivity.
  - destruct (String.eqb k0 k) eqn:E; cbn.
    + apply String.eqb_eq in E. subst k0.
      destruct (String.eqb k k') eqn:E'; [apply String.eqb_eq in E'; contradiction |].
      reflexivity.
    + destruct (String.eqb k0 k'); [reflexivity | exact IH].
Qed.

Lemma own_set_other (o : Js.object string) (k k' v : string) :
  k <> k' -> Js.own (Js.set o k v) k' = Js.own o k'.
Proof.
  intros Hne. unfold Js.set. destruct (String.eqb k "__proto__"); [reflexivity |].
  now apply own_update_other.
Qed.

Lemma own_set_same (o : Js.object string) (k v : string) :
  k <> "__proto__" -> Js.own (Js.set o k v) k = Some v.
Proof.
  intros Hne. unfold Js.set.
  destruct (String.eqb k "__proto__") eqn:E; [apply String.eqb_eq in E; contradiction |].
  apply own_update_same.
Qed.

Lemma foldM_app {A B : Type} (f : B -> A -> result B) (l1 l2 : list A) :
  forall acc,
    foldM f (l1 ++ l2) acc = (acc' <- foldM f l1 acc ;; foldM f l2 acc').
Proof.
  induction l1 as [| x l1 IH]; intros acc; [reflexivity |].
  cbn [app foldM]. destruct (f acc x); [| reflexivity]. cbn [bind]. apply IH.
Qed.

Section MoreFields.

Variable convertToHTMLFile : string -> string -> result HTMLFile.t.
Variable escapeClozesAndMacroDelimiters : string -> string.
Variable StringToNumber : string -> option Z.
Variable JSON_stringify : Js.object string -> string.

Local Notation getFieldContent' :=
  (getFieldContent convertToHTMLFile escapeClozesAndMacroDelimiters
                   StringToNumber).
Local Notation getDeclaredFieldContent' :=
  (getDeclaredFieldContent convertToHTMLFile escapeClozesAndMacroDelimiters
                           StringToNumber).
Local Notation getCard' :=
  (getCard convertToHTMLFile escapeClozesAndMacroDelimiters StringToNumber).
Local Notation getClozedContentHTML' :=
  (getClozedContentHTML convertToHTMLFile escapeClozesAndMacroDelimiters
                        StringToNumber JSON_stringify).

(** The body of the loop over the properties. *)
Definition declareField (n : MultilineCardNote) (fieldContent : Js.object string)
  (entry : string * Js.value) : result (Js.object string) :=
  if Str.startsWith (fst entry) "anki-field-" then
    html <- getFieldContent' n (snd entry) ;;
    Ok (Js.set fieldContent
               (Str.replace (fst entry) "anki-field-" EmptyString) html)
  else Ok fieldContent.

Lemma getDeclaredFieldContent_fold (n : MultilineCardNote) :
  getDeclaredFieldContent' n = foldM (declareField n) (properties n) [].
Proof. reflexivity. Qed.

Lemma declareField_eq (n : MultilineCardNote) (fields : Js.object string)
  (key : string) (value : Js.value) :
  declareField n fields (key, value)
  = if Str.startsWith key "anki-field-" then
      html <- getFieldContent' n value ;;
      Ok (Js.set fields (Str.replace key "anki-field-" EmptyString) html)
    else Ok fields.
Proof. reflexivity. Qed.

(** Properties that declare other fields leave a field as it is. *)
Lemma foldM_declareField_other (n : MultilineCardNote) (fieldName : string)
  (l : list (string * Js.value)) :
  (forall key value,
     In (key, value) l -> Str.startsWith key "anki-field-" = true ->
     Str.replace key "anki-field-" EmptyString <> fieldName) ->
  forall acc fields,
    foldM (declareField n) l acc = Ok fields ->
    Js.own fields fieldName = Js.own acc fieldName.
Proof.
  induction l as [| [key value] l IH]; intros Hother acc fields H.
  - cbn in H. now injection H as <-.
  - cbn [foldM] in H. rewrite declareField_eq in H.
    assert (Hrest : forall k v,
              In (k, v) l -> Str.startsWith k "anki-field-" = true ->
              Str.replace k "anki-field-" EmptyString <> fieldName).
    { intros k v Hin. apply (Hother k v). now right. }
    destruct (Str.startsWith key "anki-field-") eqn:E.
    + destruct (getFieldContent' n value) as [html | e]; [| discriminate].
      cbn [bind] in H. rewrite (IH Hrest _ _ H).
      apply own_set_other. exact (Hother key value (or_introl eq_refl) E).
    + cbn [bind] in H. exact (IH Hrest _ _ H).
Qed.

(** X15. On a note whose property keys are distinct, as the keys of an
    object are, a property [anki-field-X] with the mapping [m] gives the card
    the field [X], which holds the resolution of [m]; the name [__proto__]
    apart, which names no field. *)
Theorem getCard_declared_field (n : MultilineCardNote) (card : Card)
  (key : string) (mapping : Js.value) :
  NoDup (Js.keys (properties n)) ->
  In (key, mapping) (properties n) ->
  Str.startsWith key "anki-field-" = true ->
  Str.replace key "anki-field-" EmptyString <> "__proto__" ->
  getCard' n = Ok card ->
  exists html,
    getFieldContent' n mapping = Ok html
    /\ Js.own (fieldContent card)
              (Str.replace key "anki-field-" EmptyString) = Some html.
Proof.
  intros Hnodup Hin Hkey Hproto Hcard.
  set (fieldName := Str.replace key "anki-field-" EmptyString) in *.
  unfold getCard in Hcard. rewrite getDeclaredFieldContent_fold in Hcard.
  destruct (foldM (declareField n) (properties n) []) as [fields | e] eqn:Efold;
    [| discriminate].
  cbn [bind] in Hcard.
  destruct (in_split _ _ Hin) as [l1 [l2 Hsplit]].
  rewrite Hsplit in Efold, Hnodup.
  rewrite foldM_app in Efold.
  destruct (foldM (declareField n) l1 []) as [acc1 | e]; [| discriminate].
  cbn [bind foldM] in Efold. rewrite declareField_eq, Hkey in Efold.
  destruct (getFieldContent' n mapping) as [html | e]; [| discriminate].
  cbn [bind] in Efold. exists html. split; [reflexivity |].
  assert (Hfields : Js.own fields fieldName = Some html).
  { rewrite (foldM_declareField_other n fieldName l2) with (2 := Efold).
    - now apply own_set_same.
    - intros k v Hk Hstart Heq.
      apply (fieldName_inj k key Hstart Hkey) in Heq. subst k.
      unfold Js.keys in Hnodup. rewrite map_app in Hnodup. cbn [map fst] in Hnodup.
      apply NoDup_remove_2 in Hnodup. apply Hnodup, in_or_app. right.
      now apply (in_map fst) in Hk. }
  assert (Hkeys : (length (Js.keys fields) =? 0)%nat = false).
  { destruct fields; [discriminate Hfields | reflexivity]. }
  rewrite Hkeys in Hcard. cbv zeta in Hcard.
  destruct (if Js.strictEqStr (getCardDirection n) "<-"
               || Js.strictEqStr (getCardDirection n) "<->"
            then _ else _) as [main | e] in Hcard; [| discriminate].
  cbn [bind] in Hcard. injection Hcard as <-. exact Hfields.
Qed.

(** X16. When a note declares no field and its [anki-model] property is
    truthy but not a string (a number, [true], a list), the card is not
    built: once the main content is resolved, [toLowerCase] throws a
    TypeError. *)
Theorem getClozedContentHTML_model_not_string (n : MultilineCardNote)
  (main : string) :
  declaresNoField n ->
  Js.truthy (Js.get (properties n) "anki-model") = true ->
  (forall s, Js.get (properties n) "anki-model" <> VStr s) ->
  getFieldContent' n
    (VStr (if Js.strictEqStr (getCardDirection n) "<-"
              || Js.strictEqStr (getCardDirection n) "<->"
           then "children" else "content")) = Ok main ->
  getClozedContentHTML' n = Err TypeError.
Proof.
  intros Hnone Htruthy Hnot Hmain. unfold getClozedContentHTML.
  rewrite (getCard_defaults _ _ _ n Hnone). cbv zeta. rewrite Hmain.
  cbn [bind]. unfold Js.or. rewrite Htruthy.
  destruct (Js.get (properties n) "anki-model") as [| | b | z | s | l | s];
    try reflexivity.
  exfalso. now apply (Hnot s).
Qed.

(** X18. A reversed or bidirectional card that declares no field and whose
    model is not a cloze model gets the same HTML, that of its children, in
    [Front] and in [Back]: its own content is in no field. *)
Theorem getCard_reversed_defaults (n : MultilineCardNote) (card : Card) :
  declaresNoField n ->
  getCardDirection n = VStr "<-" \/ getCardDirection n = VStr "<->" ->
  getCard' n = Ok card ->
  (exists model,
     ankiModel card = VStr model
     /\ Str.includes (Str.toLowerCase model) "cloze" = false) ->
  exists children,
    getFieldContent' n (VStr "children") = Ok children
    /\ mainContent card = children
    /\ fieldContent card = [("Front", children); ("Back", children)].
Proof.
  intros Hnone Hdir Hcard [model [Hmodel Hcloze]].
  rewrite (getCard_defaults _ _ _ n Hnone) in Hcard. cbv zeta in Hcard.
  assert (E : Js.strictEqStr (getCardDirection n) "<-"
              || Js.strictEqStr (getCardDirection n) "<->" = true).
  { destruct Hdir as [-> | ->]; reflexivity. }
  rewrite E in Hcard.
  destruct (getFieldContent' n (VStr "children")) as [html | e]; [| discriminate].
  cbn [bind] in Hcard.
  destruct (callToLowerCase _) as [lower | e] eqn:El; [| discriminate].
  cbn [bind] in Hcard.
  destruct (Str.includes lower "cloze") eqn:Ec.
  - injection Hcard as <-. cbn in Hmodel. rewrite Hmodel in El.
    cbn in El. injection El as <-. congruence.
  - cbn [bind] in Hcard. injection Hcard as <-. exists html. now repeat split.
Qed.

End MoreFields.

(** ** The further statements on concrete inputs *)

Section OnScenarios.

Local Notation convert := Sample.convertToHTMLFile.
Local Notation escape := Sample.escapeClozesAndMacroDelimiters.
Local Notation toNum := Sample.StringToNumber.
Local Notation json := Sample.JSON_stringify.

(** Under the cap 2 the fine print of [Sample.outline], two levels below the
    first answer, is not read. *)
Lemma getChildrenListHTML_depth_cap_tight_witness :
  getChildrenListHTML convert escape toNum (VNum 2) Sample.outline 0
  = getChildrenListHTML convert escape toNum (VNum 2)
      (map (Block.cutBelow (Z.to_nat (2 - 1))) Sample.outline) 0.
Proof.
  apply (getChildrenListHTML_depth_cap_tight convert escape toNum 2
           Sample.outline).
  lia.
Defined.

(** The converter of [Scenario] fails on the second answer, and with it the
    list. *)
Lemma getChildrenListHTML_converter_failure_witness :
  exists e,
    getChildrenListHTML Scenario.convertToHTMLFile escape toNum (VNum 9999)
      Sample.outline 0 = Err e.
Proof.
  apply (getChildrenListHTML_converter_failure Scenario.convertToHTMLFile
           escape toNum (VNum 9999) 0 Sample.outline
           (Sample.leaf "b2" "Answer 2") HostFailure).
  - reflexivity.
  - right. left. reflexivity.
  - reflexivity.
Defined.

(** [Sample.outline] has three levels: the caps 3 and 9999 render it alike. *)
Lemma getChildrenListHTML_high_caps_witness :
  getChildrenListHTML convert escape toNum (VNum 3) Sample.outline 0
  = getChildrenListHTML convert escape toNum (VNum 9999) Sample.outline 0.
Proof.
  apply (getChildrenListHTML_high_caps convert escape toNum 3 9999
           Sample.outline).
  - lia.
  - lia.
  - vm_compute. discriminate.
  - vm_compute. discriminate.
Defined.

Lemma matchTagNamesWithTagIds_set_witness :
  matchTagNamesWithTagIds Sample.getPage [2; 52; 2] ["depth-2"; "reversed"]
  = matchTagNamesWithTagIds Sample.getPage [52; 2] ["depth-2"; "reversed"].
Proof.
  apply (matchTagNamesWithTagIds_set Sample.getPage [2; 52; 2] [52; 2]).
  intros id. cbn. tauto.
Defined.

Lemma getRelevantTags_NoDup_witness : NoDup ["reversed"; "depth-2"].
Proof.
  apply (getRelevantTags_NoDup Sample.getPage [2; 2; 52]). reflexivity.
Defined.

Lemma getNoteOfBlock_tags_relevant_witness :
  incl ["reversed"] relevantTagNames.
Proof.
  apply (getNoteOfBlock_tags_relevant Sample.getPage Sample.getBlock
           Sample.getUUIDFromBlock Sample.childBlock
           (Block.withTagsFromParentCardGroup Sample.childBlock ["reversed"])
           (newMultilineCardNote "c" "France" "markdown" [] None ["reversed"]
              [Sample.leaf "c1" "Paris"] [])).
  - reflexivity.
  - reflexivity.
Defined.

Lemma getChildrenMaxDepth_resolved_tags_witness :
  getChildrenMaxDepth Sample.twoDepthTags
  = Js.or (Js.get (properties Sample.twoDepthTags) "depth") (VNum 9999)
  \/ exists k, 0 <= k <= 9 /\ getChildrenMaxDepth Sample.twoDepthTags = VNum k.
Proof.
  apply (getChildrenMaxDepth_resolved_tags Sample.twoDepthTags).
  intros tag [<- | [<- | [<- | [<- | []]]]]; cbn; tauto.
Defined.

Lemma filterNotes_fewer_other_notes_witness :
  In (Sample.card [] ["forward"] [])
     (filterNotes [] [Sample.card [] ["forward"] []]).
Proof.
  apply (filterNotes_fewer_other_notes [] [Sample.otherNote]
           [Sample.card [] ["forward"] []] (Sample.card [] ["forward"] [])).
  - intros other [].
  - left. reflexivity.
Defined.

(** The block [lost] cannot be fetched, and the extraction returns nothing,
    not even the note of the card-group child. *)
Lemma getNotesFromLogseqBlocks_block_failure_witness :
  exists e,
    getNotesFromLogseqBlocks Sample.getPage Scenario.getBlock
      Scenario.datascriptQueryBlocks Sample.getUUIDFromBlock
      Scenario.removeUnwantedNotes [] = Err e.
Proof.
  apply (getNotesFromLogseqBlocks_block_failure Sample.getPage
           Scenario.getBlock Scenario.datascriptQueryBlocks
           Sample.getUUIDFromBlock Scenario.removeUnwantedNotes []
           [Scenario.lostBlock] [] [Sample.childBlock]
           [Block.withTagsFromParentCardGroup Sample.childBlock ["reversed"]]
           Scenario.lostBlock HostFailure).
  - reflexivity.
  - reflexivity.
  - reflexivity.
  - reflexivity.
  - left. reflexivity.
  - reflexivity.
Defined.

(** The field [Hint] of [Scenario.declared] holds the property [hint]. *)
Lemma getCard_declared_field_witness :
  exists card,
    getCard convert escape toNum Scenario.declared = Ok card
    /\ Js.own (fieldContent card) "Hint" = Some "Think of a river".
Proof.
  destruct (getCard convert escape toNum Scenario.declared) as [card | e] eqn:E;
    [| vm_compute in E; discriminate E].
  exists card. split; [reflexivity |].
  destruct (getCard_declared_field convert escape toNum Scenario.declared card
              "anki-field-Hint" (VStr "hint")) as [html [Hres Hown]].
  - repeat constructor; cbn; intuition discriminate.
  - right. right. left. reflexivity.
  - reflexivity.
  - discriminate.
  - exact E.
  - vm_compute in Hres. injection Hres as <-. exact Hown.
Defined.

Lemma getClozedContentHTML_model_not_string_witness :
  getClozedContentHTML convert escape toNum json Scenario.numberedModel
  = Err TypeError.
Proof.
  apply (getClozedContentHTML_model_not_string convert escape toNum json
           Scenario.numberedModel "<p>Question?</p>").
  - intros key value [H | []]. injection H as <- _. reflexivity.
  - reflexivity.
  - intros s. discriminate.
  - reflexivity.
Defined.

Lemma getClozedContentHTML_returns_witness :
  exists file,
    getClozedContentHTML convert escape toNum json Scenario.declared = Ok file.
Proof.
  apply (getClozedContentHTML_returns convert escape toNum json
           Scenario.declared "Basic").
  - intros content format. eexists. reflexivity.
  - reflexivity.
Defined.

(** The reversed card of [Scenario] shows its answer on both sides. *)
Lemma getCard_reversed_defaults_witness :
  exists card children,
    getCard convert escape toNum Scenario.reversed = Ok card
    /\ getFieldContent convert escape toNum Scenario.reversed (VStr "children")
       = Ok children
    /\ fieldContent card = [("Front", children); ("Back", children)].
Proof.
  destruct (getCard convert escape toNum Scenario.reversed) as [card | e] eqn:E;
    [| vm_compute in E; discriminate E].
  destruct (getCard_reversed_defaults convert escape toNum Scenario.reversed
              card) as [children [Hres [_ Hfields]]].
  - intros key value [].
  - left. reflexivity.
  - exact E.
  - exists "Basic". vm_compute in E. injection E as <-. split; reflexivity.
  - exists card, children. split; [reflexivity |]. split; assumption.
Defined.

End OnScenarios.
